(** * csync: the background synchronisation daemon

    A shallow embedding of [src/csync/daemon.py] (class [CsyncDaemon] and
    its file handler) together with the parts of [src/csync/rsync.py] it
    calls, and the properties of the synchronisation engine proved about it.

    Conventions of the embedding.
    - Text is [string]; a [pathlib.Path] is a [PurePath] (anchor flag and
      component list), always in POSIX flavour: the daemon forks, so it
      only runs where [os.sep] is the forward slash.
    - Time stamps ([time.time()], the two delays) are exact rationals [Q];
      the rounding of binary floating point is not modelled.
    - Python integers are [Z].
    - The mutable daemon object, the process registry and the observable
      effects (console lines, forks, sleeps, transfers) form a [World]
      that is threaded through a small state-and-exception monad.
    - What the operating system decides (clock readings, the outcome of a
      transfer, the result of [os.fork]) is passed in as an argument. *)

From Stdlib Require Import QArith Lqa Ascii String.
From stdpp Require Import gmap strings list sorting.

Local Open Scope string_scope.

(** ** Python string primitives *)

Module PyStr.

(** [s.replace(a, b)] for one-character [a] and [b]. *)
Fixpoint replace_char (a b : ascii) (s : string) : string :=
  match s with
  | EmptyString => EmptyString
  | String c s' =>
      String (if Ascii.eqb c a then b else c) (replace_char a b s')
  end.

(** [s.endswith(c)] for a one-character [c]. *)
Fixpoint endswith_char (c : ascii) (s : string) : bool :=
  match s with
  | EmptyString => false
  | String d EmptyString => Ascii.eqb d c
  | String _ s' => endswith_char c s'
  end.

(** [s.rstrip(c)] for a one-character [c]: every trailing [c] goes. *)
Fixpoint rstrip_char (c : ascii) (s : string) : string :=
  match s with
  | EmptyString => EmptyString
  | String d s' =>
      match rstrip_char c s' with
      | EmptyString => if Ascii.eqb d c then EmptyString else String d EmptyString
      | r => String d r
      end
  end.

(** [s.startswith(p)]. *)
Definition startswith (s p : string) : bool := String.prefix p s.

(** [c in s] for a one-character [c]. *)
Fixpoint contains_char (c : ascii) (s : string) : bool :=
  match s with
  | EmptyString => false
  | String d s' => Ascii.eqb d c || contains_char c s'
  end.

(** [s.split(c)] for a one-character separator: the pieces between the
    separators, empty pieces included. *)
Fixpoint split_char (c : ascii) (s : string) : list string :=
  match s with
  | EmptyString => [EmptyString]
  | String d s' =>
      if Ascii.eqb d c then EmptyString :: split_char c s'
      else match split_char c s' with
           | [] => [String d EmptyString]
           | w :: ws => String d w :: ws
           end
  end.

(** [sep.join(ws)]. *)
Fixpoint join (sep : string) (ws : list string) : string :=
  match ws with
  | [] => EmptyString
  | [w] => w
  | w :: ws' => w ++ sep ++ join sep ws'
  end.

End PyStr.

(** ** [fnmatch.fnmatch] on POSIX

    The standard-library matcher the daemon calls: the pattern is read as
    a sequence of items ([*], [?], a bracket set, a literal character) and
    must match the whole name.  [os.path.normcase] is the identity on
    POSIX, so no case folding takes place. *)

Module Fnmatch.

Inductive item : Type :=
| Star                                  (* [*]: any run of characters *)
| AnyChar                               (* [?]: exactly one character *)
| Lit (c : ascii)
| CharSet (negated : bool) (ranges : list (ascii * ascii)).

(** Position of the bracket that closes a set whose body starts at [s]:
    a [!] and then a [[]]] right at the start belong to the body. *)
Fixpoint find_close (s : list ascii) : option nat :=
  match s with
  | [] => None
  | c :: s' =>
      if Ascii.eqb c "]" then Some 0%nat else S <$> find_close s'
  end.

Definition set_end (s : list ascii) : option nat :=
  let '(k1, s1) :=
    match s with
    | c :: s' => if Ascii.eqb c "!" then (1%nat, s') else (0%nat, s)
    | [] => (0%nat, s)
    end in
  let '(k2, s2) :=
    match s1 with
    | c :: s' => if Ascii.eqb c "]" then (S k1, s') else (k1, s1)
    | [] => (k1, s1)
    end in
  (fun j => (k2 + j)%nat) <$> find_close s2.

(** The body of a set, read left to right: [a-b] is a range, any other
    character stands for itself. *)
Fixpoint ranges_of (fuel : nat) (body : list ascii) : list (ascii * ascii) :=
  match fuel with
  | O => []
  | S fuel' =>
      match body with
      | [] => []
      | lo :: dash :: hi :: rest =>
          if Ascii.eqb dash "-" then (lo, hi) :: ranges_of fuel' rest
          else (lo, lo) :: ranges_of fuel' (dash :: hi :: rest)
      | c :: rest => (c, c) :: ranges_of fuel' rest
      end
  end.

Definition set_of (body : list ascii) : item :=
  match body with
  | c :: body' =>
      if Ascii.eqb c "!" then CharSet true (ranges_of (length body') body')
      else CharSet false (ranges_of (length body) body)
  | [] => CharSet false []
  end.

Fixpoint parse (fuel : nat) (pat : list ascii) : list item :=
  match fuel with
  | O => []
  | S fuel' =>
      match pat with
      | [] => []
      | c :: rest =>
          if Ascii.eqb c "*" then Star :: parse fuel' rest
          else if Ascii.eqb c "?" then AnyChar :: parse fuel' rest
          else if Ascii.eqb c "[" then
            match set_end rest with
            | None => Lit c :: parse fuel' rest
            | Some j => set_of (take j rest) :: parse fuel' (drop (S j) rest)
            end
          else Lit c :: parse fuel' rest
      end
  end.

Definition in_range (c : ascii) (r : ascii * ascii) : bool :=
  (nat_of_ascii (fst r) <=? nat_of_ascii c)%nat
  && (nat_of_ascii c <=? nat_of_ascii (snd r))%nat.

Definition item_accepts (i : item) (c : ascii) : bool :=
  match i with
  | Star | AnyChar => true
  | Lit d => Ascii.eqb c d
  | CharSet negated ranges => xorb negated (existsb (in_range c) ranges)
  end.

Fixpoint matches (items : list item) (s : list ascii) : bool :=
  match items with
  | [] => match s with [] => true | _ => false end
  | Star :: items' =>
      (fix skip (s : list ascii) : bool :=
         matches items' s
         || match s with [] => false | _ :: s' => skip s' end) s
  | i :: items' =>
      match s with
      | [] => false
      | c :: s' => item_accepts i c && matches items' s'
      end
  end.

Definition fnmatch (name pat : string) : bool :=
  let p := list_ascii_of_string pat in
  matches (parse (length p) p) (list_ascii_of_string name).

End Fnmatch.

(** ** [pathlib] paths, POSIX flavour *)

Module PyPath.

Record PurePath : Type := mkPath {
  anchored : bool;          (* starts at the root [/] *)
  parts : list string       (* the components below the anchor *)
}.

#[export] Instance PurePath_eq_dec : EqDecision PurePath.
Proof. solve_decision. Defined.

#[export] Instance PurePath_countable : Countable PurePath.
Proof.
  apply (inj_countable' (fun p => (anchored p, parts p))
                        (fun t => mkPath (fst t) (snd t))).
  by intros [].
Defined.

Definition keep_part (w : string) : bool :=
  negb (String.eqb w "") && negb (String.eqb w ".").

(** [Path(text)]: repeated slashes, a trailing slash and [.] components
    disappear; [..] stays. *)
Definition Path (text : string) : PurePath :=
  {| anchored := PyStr.startswith text "/";
     parts := List.filter keep_part (PyStr.split_char "/" text) |}.

Definition is_absolute (p : PurePath) : bool := anchored p.

Definition as_posix (p : PurePath) : string :=
  if anchored p then "/" ++ PyStr.join "/" (parts p)
  else match parts p with
       | [] => "."
       | ws => PyStr.join "/" ws
       end.

(** [str(p)]. *)
Definition str (p : PurePath) : string := as_posix p.

(** [a / b]. *)
Definition joinpath (a b : PurePath) : PurePath :=
  if anchored b then b
  else {| anchored := anchored a; parts := (parts a ++ parts b)%list |}.

(** [p.name]: the last component, empty for the root. *)
Definition name (p : PurePath) : string := List.last (parts p) "".

Fixpoint strip_parts (base ws : list string) : option (list string) :=
  match base, ws with
  | [], _ => Some ws
  | b :: base', w :: ws' =>
      if String.eqb b w then strip_parts base' ws' else None
  | _ :: _, [] => None
  end.

(** [p.relative_to(base)]; [None] stands for the [ValueError]. *)
Definition relative_to (p base : PurePath) : option PurePath :=
  if Bool.eqb (anchored p) (anchored base) then
    mkPath false <$> strip_parts (parts base) (parts p)
  else None.

Fixpoint common_len (xs ys : list string) : nat :=
  match xs, ys with
  | x :: xs', y :: ys' =>
      if String.eqb x y then S (common_len xs' ys') else 0%nat
  | _, _ => 0%nat
  end.

(** [os.path.relpath(str(p), str(start))] for two absolute, normalised
    paths: climb out of [start] to the common ancestor, then descend. *)
Definition relpath (p start : PurePath) : string :=
  let i := common_len (parts start) (parts p) in
  match (replicate (length (parts start) - i) ".." ++ drop i (parts p))%list with
  | [] => "."
  | ws => PyStr.join "/" ws
  end.

End PyPath.

Export PyPath.

(** ** Data model *)

(** The fields of [CsyncConfig] (config.py) the daemon reads.
    [remote_target] is the configuration's derived target text and
    [config_file] the optional [_config_file] attribute. *)
Record CsyncConfig : Type := mkConfig {
  cfg_local_path : string;
  remote_target : string;
  exclude_patterns : option (list string);
  config_file : option string
}.

(** Modelled from the spec: the [DaemonInfo] record of
    process_manager.py, which is not among the sources, with the fields
    the spec lists for a DaemonRecord and the names [CsyncDaemon.start]
    uses when it builds one. *)
Record DaemonInfo : Type := mkDaemonInfo {
  pid : Z;
  di_local_path : string;
  di_remote_target : string;
  di_config_file : string;
  di_signature : string;
  started_at : Q;
  di_sync_count : Z;
  last_sync : option Q
}.

(** Exceptions.  The last two derive from [BaseException] only and are
    not caught by [except Exception]. *)
Inductive exn : Type :=
| CalledProcessError (returncode : Z)
| FileNotFoundError
| OSError
| RuntimeError (msg : string)
| KeyboardInterrupt
| SystemExit.

Definition is_Exception (e : exn) : bool :=
  match e with
  | KeyboardInterrupt | SystemExit => false
  | _ => true
  end.

Definition is_OSError (e : exn) : bool :=
  match e with
  | OSError | FileNotFoundError => true
  | _ => false
  end.

(** What a call did: it returned a value or raised. *)
Inductive result (A : Type) : Type :=
| Ok (a : A)
| Raise (e : exn).
Arguments Ok {A} a.
Arguments Raise {A} e.

(** Lines written to the console ([console.print]) or to the standard
    error stream ([print(..., file=sys.stderr)] in rsync.py). *)
Inductive line : Type :=
| MsgEvent (event_type rel_path : string)
| MsgSyncing (change_count : nat)
| MsgChange (rel_path : string)
| MsgMore (more : nat)
| MsgScheduled
| MsgSyncOk
| MsgSyncFailed
| MsgSyncError (e : exn)
| MsgDaemonError (e : exn)
| MsgPushFailed (returncode : Z)
| MsgRsyncNotFound
| MsgAlreadyRunning (path : string) (other : Z)
| MsgForkFailed (e : exn)
| MsgStarting (path : string) (self : Z)
| MsgWatching (path : string)
| MsgTarget (target : string)
| MsgInitialSync
| MsgStopping
| MsgStopped.

(** Effects on the world outside the daemon object, in the order they
    happen. *)
Inductive event : Type :=
| EvPrint (l : line)
| EvRsyncPush (source destination : string)   (* [subprocess.run] of the push *)
| EvSleep (seconds : Q)
| EvFork
| EvSetsid
| EvSignalHandlers (signature : string)
| EvThreadStart                               (* the thread running [sync_loop] *)
| EvCloseStdStreams.

(** The mutable attributes of a [CsyncDaemon].  The watchdog observer is
    kept as the list of roots it was asked to watch and its liveness. *)
Record Daemon : Type := mkDaemon {
  config : CsyncConfig;
  local_path : PurePath;
  signature : string;
  observer_watches : list string;
  observer_alive : bool;
  is_running : bool;
  pending_changes : gset PurePath;
  last_sync_time : Q;
  sync_count : Z;
  sync_delay : Q;
  max_sync_interval : Q;
  batch_size : Z
}.

(** A daemon together with what it shares with the rest of the host. *)
Record World : Type := mkWorld {
  daemon : Daemon;
  registry : gmap string DaemonInfo;   (* persisted records, by signature *)
  live_pids : gset Z;                  (* process ids that currently exist *)
  trace : list event                   (* effects so far, oldest first *)
}.

(** Attribute assignment. *)
Definition set_observer_watches (v : list string) (d : Daemon) : Daemon :=
  mkDaemon (config d) (local_path d) (signature d) v (observer_alive d)
    (is_running d) (pending_changes d) (last_sync_time d) (sync_count d)
    (sync_delay d) (max_sync_interval d) (batch_size d).

Definition set_observer_alive (v : bool) (d : Daemon) : Daemon :=
  mkDaemon (config d) (local_path d) (signature d) (observer_watches d) v
    (is_running d) (pending_changes d) (last_sync_time d) (sync_count d)
    (sync_delay d) (max_sync_interval d) (batch_size d).

Definition set_is_running (v : bool) (d : Daemon) : Daemon :=
  mkDaemon (config d) (local_path d) (signature d) (observer_watches d)
    (observer_alive d) v (pending_changes d) (last_sync_time d) (sync_count d)
    (sync_delay d) (max_sync_interval d) (batch_size d).

Definition set_pending_changes (v : gset PurePath) (d : Daemon) : Daemon :=
  mkDaemon (config d) (local_path d) (signature d) (observer_watches d)
    (observer_alive d) (is_running d) v (last_sync_time d) (sync_count d)
    (sync_delay d) (max_sync_interval d) (batch_size d).

Definition set_last_sync_time (v : Q) (d : Daemon) : Daemon :=
  mkDaemon (config d) (local_path d) (signature d) (observer_watches d)
    (observer_alive d) (is_running d) (pending_changes d) v (sync_count d)
    (sync_delay d) (max_sync_interval d) (batch_size d).

Definition set_sync_count (v : Z) (d : Daemon) : Daemon :=
  mkDaemon (config d) (local_path d) (signature d) (observer_watches d)
    (observer_alive d) (is_running d) (pending_changes d) (last_sync_time d) v
    (sync_delay d) (max_sync_interval d) (batch_size d).

Definition set_daemon (d : Daemon) (w : World) : World :=
  mkWorld d (registry w) (live_pids w) (trace w).

Definition set_registry (r : gmap string DaemonInfo) (w : World) : World :=
  mkWorld (daemon w) r (live_pids w) (trace w).

Definition emit (e : event) (w : World) : World :=
  mkWorld (daemon w) (registry w) (live_pids w) (trace w ++ [e])%list.

(** ** A state-and-exception monad over the world

    A computation transforms the world and either returns or raises; what
    it did to the world before raising stays done, as in Python. *)

Definition M (A : Type) : Type := World -> World * result A.

Definition ret {A} (a : A) : M A := fun w => (w, Ok a).

Definition raise {A} (e : exn) : M A := fun w => (w, Raise e).

Definition bind {A B} (m : M A) (k : A -> M B) : M B :=
  fun w =>
    match m w with
    | (w', Ok a) => k a w'
    | (w', Raise e) => (w', Raise e)
    end.

(** [try: body except <class> as e: handler e], the class given by the
    test [caught]. *)
Definition try_except {A} (body : M A) (caught : exn -> bool)
    (handler : exn -> M A) : M A :=
  fun w =>
    match body w with
    | (w', Ok a) => (w', Ok a)
    | (w', Raise e) => if caught e then handler e w' else (w', Raise e)
    end.

Definition get : M World := fun w => (w, Ok w).

Definition modify (f : World -> World) : M unit := fun w => (f w, Ok tt).

Definition modify_daemon (f : Daemon -> Daemon) : M unit :=
  modify (fun w => set_daemon (f (daemon w)) w).

Definition self : M Daemon := fun w => (w, Ok (daemon w)).

Definition do_event (e : event) : M unit := modify (emit e).

Definition console_print (l : line) : M unit := do_event (EvPrint l).

Definition sleep (seconds : Q) : M unit := do_event (EvSleep seconds).

Declare Scope py_scope.
Delimit Scope py_scope with py.
Notation "'let*' x ':=' c 'in' k" := (bind c (fun x => k))
  (at level 10, x name, c at level 100, k at level 200) : py_scope.
Notation "c ;;; k" := (bind c (fun _ => k))
  (at level 100, k at level 200, right associativity) : py_scope.
Local Open Scope py_scope.

Fixpoint for_each {A} (xs : list A) (body : A -> M unit) : M unit :=
  match xs with
  | [] => ret tt
  | x :: xs' => body x ;;; for_each xs' body
  end.

(** ** The process registry

    process_manager.py is not among the sources; the daemon only calls
    it.  Its operations are modelled from section 4.5 of the spec. *)

Module ProcessManager.

(** Modelled from the spec: [generate_signature] of the missing
    process_manager.py, "deterministic, collision-free for distinct
    canonical paths": the canonical path text serves as its own
    signature. *)
Definition generate_signature (canonical_path : string) : string :=
  canonical_path.

(** Modelled from the spec: [get_daemon_by_path] of the missing
    process_manager.py (lookupByPath), which "returns a record only if
    its process id currently identifies a live process" and ignores a
    stale one. *)
Definition get_daemon_by_path (canonical_path : string) (w : World)
    : option DaemonInfo :=
  match registry w !! generate_signature canonical_path with
  | Some info =>
      if bool_decide (pid info ∈ live_pids w) then Some info else None
  | None => None
  end.

(** Modelled from the spec: [start_daemon] of the missing
    process_manager.py (register), which "fails (returns false) if a
    live record already exists for the same canonical path; otherwise
    persists the record". *)
Definition start_daemon (info : DaemonInfo) : M bool :=
  fun w =>
    match get_daemon_by_path (di_local_path info) w with
    | Some _ => (w, Ok false)
    | None =>
        (set_registry (<[di_signature info := info]> (registry w)) w, Ok true)
    end.

(** Modelled from the spec: [update_daemon_stats] of the missing
    process_manager.py (updateStats), a "best-effort update of an
    existing record; no-op if the record has disappeared". *)
Definition record_stats (last_sync_at : Q) (count : Z) (info : DaemonInfo)
    : DaemonInfo :=
  mkDaemonInfo (pid info) (di_local_path info) (di_remote_target info)
    (di_config_file info) (di_signature info) (started_at info)
    count (Some last_sync_at).

Definition update_daemon_stats (canonical_path : string) (last_sync_at : Q)
    (count : Z) : M unit :=
  modify (fun w =>
    set_registry
      (alter (record_stats last_sync_at count)
             (generate_signature canonical_path) (registry w)) w).

(** Modelled from the spec: [cleanup_daemon_files] of the missing
    process_manager.py (unregister), which "removes the persisted
    record for the given signature; idempotent". *)
Definition cleanup_daemon_files (sig : string) : M unit :=
  modify (fun w => set_registry (delete sig (registry w)) w).

(** Modelled from the spec: [setup_signal_handlers] of the missing
    process_manager.py; only the fact that handlers were installed for
    the signature is kept. *)
Definition setup_signal_handlers (sig : string) : M unit :=
  do_event (EvSignalHandlers sig).

End ProcessManager.

(** ** [RsyncWrapper.push] (rsync.py)

    [run] is what [subprocess.run(cmd, check=True)] did.  The daemon
    calls [push(dry_run=False, verbose=False)], so nothing is printed on
    success.  Only the two exception classes named in the source are
    turned into [False]; any other propagates. *)
Definition push (run : result unit) : M bool :=
  let* d := self in
  let source := cfg_local_path (config d) in
  let destination := remote_target (config d) in
  do_event (EvRsyncPush source destination) ;;;
  match run with
  | Ok _ => ret true
  | Raise (CalledProcessError returncode) =>
      do_event (EvPrint (MsgPushFailed returncode)) ;;; ret false
  | Raise FileNotFoundError =>
      do_event (EvPrint MsgRsyncNotFound) ;;; ret false
  | Raise e => raise e
  end.

(** ** [CsyncDaemon] *)

(** A raw path handed to the daemon: text or an existing path object. *)
Inductive RawPath : Type :=
| RawStr (text : string)
| RawPathObj (p : PurePath).

(** [a > b] on time stamps. *)
Definition Qgtb (a b : Q) : bool := negb (Qle_bool a b).

Section Daemon.

(** [Path.resolve()]: the file system's canonical form of an absolute
    path (symbolic links followed, [..] removed). *)
Variable resolve : PurePath -> PurePath.

(** [CsyncDaemon.__init__]. *)
Definition init (cfg : CsyncConfig) : Daemon :=
  let root := resolve (Path (cfg_local_path cfg)) in
  {| config := cfg;
     local_path := root;
     signature := ProcessManager.generate_signature (str root);
     observer_watches := [];
     observer_alive := false;
     is_running := false;
     pending_changes := ∅;
     last_sync_time := 0;
     sync_count := 0;
     sync_delay := 5;
     max_sync_interval := 300;
     batch_size := 100 |}.

Definition _coerce_path (d : Daemon) (file_path : RawPath) : PurePath :=
  let path :=
    match file_path with
    | RawPathObj p => p
    | RawStr text => Path text
    end in
  if negb (is_absolute path) then resolve (joinpath (local_path d) path)
  else resolve path.

Definition _relative_path (d : Daemon) (path : PurePath) : string :=
  match relative_to path (local_path d) with
  | Some rel => as_posix rel
  | None => PyStr.replace_char "/" "/" (relpath path (local_path d))
  end.

(** One round of the loop over the patterns in [should_exclude_file]:
    does this pattern exclude the file? *)
Definition pattern_excludes (rel_path file_name pattern : string) : bool :=
  let normalized_pattern := PyStr.replace_char "\" "/" pattern in
  if PyStr.endswith_char "/" normalized_pattern then
    PyStr.startswith rel_path (PyStr.rstrip_char "/" normalized_pattern)
  else if PyStr.contains_char "*" normalized_pattern then
    Fnmatch.fnmatch rel_path normalized_pattern
    || Fnmatch.fnmatch file_name normalized_pattern
  else
    String.eqb rel_path normalized_pattern
    || String.eqb file_name normalized_pattern.

(** The loop itself: the first pattern that excludes returns [True]. *)
Fixpoint any_pattern_excludes (rel_path file_name : string)
    (patterns : list string) : bool :=
  match patterns with
  | [] => false
  | pattern :: rest =>
      if pattern_excludes rel_path file_name pattern then true
      else any_pattern_excludes rel_path file_name rest
  end.

Definition should_exclude_file (d : Daemon) (file_path : RawPath) : bool :=
  let path := _coerce_path d file_path in
  let rel_path := _relative_path d path in
  match exclude_patterns (config d) with
  | None | Some [] => false
  | Some patterns => any_pattern_excludes rel_path (name path) patterns
  end.

(** The body runs under [sync_lock], hence as one step. *)
Definition add_pending_change (file_path : RawPath) : M unit :=
  let* d := self in
  let path := _coerce_path d file_path in
  modify_daemon (fun d => set_pending_changes (pending_changes d ∪ {[path]}) d).

(** Under [sync_lock] too: copy, clear, return the copy. *)
Definition get_pending_changes : M (gset PurePath) :=
  let* d := self in
  let changes := pending_changes d in
  modify_daemon (set_pending_changes ∅) ;;;
  ret changes.

(** [current_time] is the reading of [time.time()]. *)
Definition should_sync_now (d : Daemon) (current_time : Q) : bool :=
  if Qgtb (current_time - last_sync_time d) (max_sync_interval d) then true
  else if negb (bool_decide (pending_changes d = ∅))
          && Qgtb (current_time - last_sync_time d) (sync_delay d) then true
  else false.


(** [sorted(changes, key=lambda p: p.as_posix())]. *)
Definition display_order (changes : gset PurePath) : list PurePath :=
  merge_sort (fun p q => Is_true (String.leb (as_posix p) (as_posix q)))
             (elements changes).

(** The [if changes: ... else: ...] block at the head of [perform_sync]:
    what is about to be synchronised, at most five paths by name. *)
Definition report_changes (changes : gset PurePath) : M unit :=
  let* d := self in
  if negb (bool_decide (changes = ∅)) then
    let change_count := size changes in
    let display_changes := display_order changes in
    console_print (MsgSyncing change_count) ;;;
    if (change_count <=? 5)%nat then
      for_each (take 5 display_changes)
        (fun change => console_print (MsgChange (_relative_path d change)))
    else
      for_each (take 3 display_changes)
        (fun change => console_print (MsgChange (_relative_path d change))) ;;;
      console_print (MsgMore (change_count - 3))
  else console_print MsgScheduled.

(** [run] is the outcome of the transfer process and [now] the clock
    reading taken after a successful transfer. *)
Definition perform_sync (run : result unit) (now : Q) : M bool :=
  try_except
    (let* changes := get_pending_changes in
     report_changes changes ;;;
     let* success := push run in
     (if success then
        modify_daemon (fun d => set_sync_count (sync_count d + 1) d) ;;;
        modify_daemon (set_last_sync_time now) ;;;
        let* d := self in
        ProcessManager.update_daemon_stats
          (str (local_path d)) (last_sync_time d) (sync_count d) ;;;
        console_print MsgSyncOk
      else console_print MsgSyncFailed) ;;;
     ret success)
    is_Exception
    (fun e => console_print (MsgSyncError e) ;;; ret false).

(** *** The scheduler loop

    The loop runs on a thread of its own.  One [Tick] holds what the rest
    of the system contributes to one iteration. *)

Record Tick : Type := mkTick {
  tick_now : Q;            (* [time.time()] in [should_sync_now] *)
  tick_run : result unit;  (* the transfer, should one be made *)
  tick_done : Q;           (* [time.time()] after that transfer *)
  tick_stop : bool         (* [stop()] ran on the main thread meanwhile *)
}.

(** Why the model of the loop ended: the loop test found [is_running]
    false, or the supplied ticks were used up with the loop still going. *)
Inductive loop_exit : Type := LoopStopped | LoopStillRunning.

(** The body of the [while]; [perform] is the bound method
    [self.perform_sync]. *)
Definition sync_loop_body (perform : M bool) (current_time : Q) : M unit :=
  try_except
    (let* d := self in
     (if should_sync_now d current_time then perform ;;; ret tt else ret tt) ;;;
     sleep 1)
    is_Exception
    (fun e => console_print (MsgDaemonError e) ;;; sleep 5).

Fixpoint sync_loop_with (perform : Tick -> M bool) (ticks : list Tick)
    : M loop_exit :=
  let* d := self in
  if is_running d then
    match ticks with
    | [] => ret LoopStillRunning
    | t :: rest =>
        sync_loop_body (perform t) (tick_now t) ;;;
        (if tick_stop t then modify_daemon (set_is_running false) else ret tt) ;;;
        sync_loop_with perform rest
    end
  else ret LoopStopped.

Definition sync_loop : list Tick -> M loop_exit :=
  sync_loop_with (fun t => perform_sync (tick_run t) (tick_done t)).

(** *** Start and stop *)

Definition stop : M unit :=
  modify_daemon (set_is_running false) ;;;
  let* d := self in
  (if observer_alive d then modify_daemon (set_observer_alive false)
   else ret tt) ;;;
  ProcessManager.cleanup_daemon_files (signature d) ;;;
  console_print MsgStopped.

(** What the host contributes to one call of [start]. *)
Record StartEnv : Type := mkStartEnv {
  env_getpid : Z;          (* [os.getpid()] in the calling process *)
  env_time : Q;            (* [time.time()] when the record is built *)
  env_fork : result Z;     (* [os.fork()] *)
  env_child_pid : Z;       (* [os.getpid()] in the forked child *)
  env_run : result unit;   (* the transfer of the initial sync *)
  env_done : Q;            (* [time.time()] after that transfer *)
  env_polls : nat          (* sleeps before the keyboard interrupt arrives *)
}.

(** [while self.is_running: time.sleep(interval)], left through the
    [KeyboardInterrupt] that arrives after [polls] sleeps. *)
Fixpoint wait_loop (interval : Q) (polls : nat) : M unit :=
  let* d := self in
  if is_running d then
    match polls with
    | O => raise KeyboardInterrupt
    | S polls' => sleep interval ;;; wait_loop interval polls'
    end
  else ret tt.

Definition is_KeyboardInterrupt (e : exn) : bool :=
  match e with KeyboardInterrupt => true | _ => false end.

Definition with_pid (new_pid : Z) (info : DaemonInfo) : DaemonInfo :=
  mkDaemonInfo new_pid (di_local_path info) (di_remote_target info)
    (di_config_file info) (di_signature info) (started_at info)
    (di_sync_count info) (last_sync info).

(** The part of [start] after the fork block, in two pieces.  First,
    from [# Register daemon] up to the announcement of the initial sync:
    the daemon is brought up and its scheduler thread started. *)
Definition bring_up (env : StartEnv) (detach : bool)
    (daemon_info : DaemonInfo) : M unit :=
  let* d := self in
  (* [not detach or not start_daemon(...)]: [or] evaluates its right
     operand only when the left one is false *)
  let* just_print :=
    (if negb detach then ret true
     else let* registered := ProcessManager.start_daemon daemon_info in
          ret (negb registered)) in
  (if just_print then
     if negb detach then
       console_print (MsgStarting (str (local_path d)) (env_getpid env))
     else ret tt
   else ret tt) ;;;
  ProcessManager.setup_signal_handlers (signature d) ;;;
  modify_daemon (set_observer_alive true) ;;;
  modify_daemon (set_is_running true) ;;;
  do_event EvThreadStart ;;;
  console_print (MsgWatching (str (local_path d))) ;;;
  console_print (MsgTarget (remote_target (config d))) ;;;
  console_print MsgInitialSync.

(** Last, from [if detach:] to the end: the wait for the interrupt and
    [stop]. *)
Definition run_until_stopped (env : StartEnv) (detach : bool) : M bool :=
  (if detach then
     do_event EvCloseStdStreams ;;;
     try_except (wait_loop 1 (env_polls env)) is_KeyboardInterrupt
       (fun _ => ret tt)
   else
     try_except (wait_loop (1 # 10) (env_polls env)) is_KeyboardInterrupt
       (fun _ => console_print MsgStopping)) ;;;
  stop ;;;
  ret true.

(** In between, the initial sync. *)
Definition start_watching (env : StartEnv) (detach : bool)
    (daemon_info : DaemonInfo) : M bool :=
  bring_up env detach daemon_info ;;;
  perform_sync (env_run env) (env_done env) ;;;
  run_until_stopped env detach.

Definition start (env : StartEnv) (detach : bool) : M bool :=
  let* d := self in
  let* w := get in
  match ProcessManager.get_daemon_by_path (str (local_path d)) w with
  | Some existing =>
      console_print (MsgAlreadyRunning (str (local_path d)) (pid existing)) ;;;
      ret false
  | None =>
      modify_daemon (fun d =>
        set_observer_watches
          (observer_watches d ++ [str (local_path d)])%list d) ;;;
      let daemon_info :=
        {| pid := env_getpid env;
           di_local_path := str (local_path d);
           di_remote_target := remote_target (config d);
           di_config_file := default ".csync.cfg" (config_file (config d));
           di_signature := signature d;
           started_at := env_time env;
           di_sync_count := 0;
           last_sync := None |} in
      let* forked :=
        (if detach then
           try_except
             (do_event EvFork ;;;
              let* child := (fun w => (w, env_fork env)) in
              if (0 <? child)%Z then
                ProcessManager.start_daemon (with_pid child daemon_info) ;;;
                ret (inl true)
              else
                do_event EvSetsid ;;;
                ret (inr (with_pid (env_child_pid env) daemon_info)))
             is_OSError
             (fun e => console_print (MsgForkFailed e) ;;; ret (inl false))
         else ret (inr daemon_info)) in
      match forked with
      | inl returned => ret returned
      | inr daemon_info => start_watching env detach daemon_info
      end
  end.

(** [start_daemon(config, console, detach)] at the end of daemon.py,
    run in a world whose daemon slot is overwritten by the new object. *)
Definition start_daemon (cfg : CsyncConfig) (env : StartEnv) (detach : bool)
    : M bool :=
  modify (set_daemon (init cfg)) ;;;
  start env detach.

End Daemon.


(** ** Histories of the change coalescer

    [add_pending_change] (record) and [get_pending_changes] (drain) each
    run under [sync_lock], so whatever the two threads do, the calls take
    effect one after the other: a history is a list of calls. *)

Inductive coalescer_call : Type :=
| CallRecord (file_path : RawPath)
| CallDrain.

Definition is_drain (c : coalescer_call) : bool :=
  match c with CallDrain => true | CallRecord _ => false end.

Definition count_drains (calls : list coalescer_call) : nat :=
  length (List.filter is_drain calls).

(** Runs a history and collects what each drain returned, in order. *)
Fixpoint coalescer_run (resolve : PurePath -> PurePath)
    (calls : list coalescer_call) : M (list (gset PurePath)) :=
  match calls with
  | [] => ret []
  | CallRecord file_path :: rest =>
      add_pending_change resolve file_path ;;;
      coalescer_run resolve rest
  | CallDrain :: rest =>
      let* drained := get_pending_changes in
      let* later := coalescer_run resolve rest in
      ret (drained :: later)
  end.

Definition drain_results (resolve : PurePath -> PurePath)
    (calls : list coalescer_call) (w : World) : list (gset PurePath) :=
  match snd (coalescer_run resolve calls w) with
  | Ok results => results
  | Raise _ => []
  end.

(** The same history read off the list of calls alone: [acc] is what is
    pending, [coerce] the normalisation of recorded paths. *)
Fixpoint history_drains (coerce : RawPath -> PurePath) (acc : gset PurePath)
    (calls : list coalescer_call) : list (gset PurePath) :=
  match calls with
  | [] => []
  | CallRecord file_path :: rest =>
      history_drains coerce (acc ∪ {[coerce file_path]}) rest
  | CallDrain :: rest => acc :: history_drains coerce ∅ rest
  end.

Fixpoint history_pending (coerce : RawPath -> PurePath) (acc : gset PurePath)
    (calls : list coalescer_call) : gset PurePath :=
  match calls with
  | [] => acc
  | CallRecord file_path :: rest =>
      history_pending coerce (acc ∪ {[coerce file_path]}) rest
  | CallDrain :: rest => history_pending coerce ∅ rest
  end.

(** ** A concrete daemon for worked examples

    A file system without symbolic links whose paths are already
    canonical, a project under [/home/u/proj] and an empty host. *)

Definition plain_resolve (p : PurePath) : PurePath := p.

Definition sample_config : CsyncConfig :=
  {| cfg_local_path := "/home/u/proj/";
     remote_target := "u@host:/srv/proj/";
     exclude_patterns := Some ["build/"; "*.log"];
     config_file := None |}.

Definition sample_world : World :=
  {| daemon := init plain_resolve sample_config;
     registry := ∅;
     live_pids := ∅;
     trace := [] |}.

(** ** Vocabulary for the statements about [perform_sync] *)

(** The world after some lines were printed and nothing else happened. *)
Definition printed (lines : list line) (w : World) : World :=
  mkWorld (daemon w) (registry w) (live_pids w)
    (trace w ++ (EvPrint <$> lines))%list.

(** What [perform_sync] gives back for each outcome of the transfer. *)
Definition sync_answer (run : result unit) : result bool :=
  match run with
  | Ok _ => Ok true
  | Raise e => if is_Exception e then Ok false else Raise e
  end.

(** The lines that follow the transfer, for each outcome. *)
Definition sync_epilogue (run : result unit) : list line :=
  match run with
  | Ok _ => [MsgSyncOk]
  | Raise (CalledProcessError returncode) =>
      [MsgPushFailed returncode; MsgSyncFailed]
  | Raise FileNotFoundError => [MsgRsyncNotFound; MsgSyncFailed]
  | Raise e => if is_Exception e then [MsgSyncError e] else []
  end.

(** The daemon and the registry after a sync whose transfer ended as
    [run]: counters and registry move only on success. *)
Definition synced_daemon (run : result unit) (now : Q) (d : Daemon) : Daemon :=
  match run with
  | Ok _ =>
      set_last_sync_time now
        (set_sync_count (sync_count d + 1) (set_pending_changes ∅ d))
  | Raise _ => set_pending_changes ∅ d
  end.

Definition synced_registry (run : result unit) (now : Q) (w : World)
    : gmap string DaemonInfo :=
  match run with
  | Ok _ =>
      alter (ProcessManager.record_stats now (sync_count (daemon w) + 1))
        (ProcessManager.generate_signature (str (local_path (daemon w))))
        (registry w)
  | Raise _ => registry w
  end.

Definition is_push (e : event) : bool :=
  match e with EvRsyncPush _ _ => true | _ => false end.

Definition is_sleep (e : event) : bool :=
  match e with EvSleep _ => true | _ => false end.

Definition count_pushes (tr : list event) : nat :=
  length (List.filter is_push tr).

(** The sleeps of a trace, in order. *)
Definition sleeps_of (tr : list event) : list Q :=
  omap (fun e => match e with EvSleep s => Some s | _ => None end) tr.

(** ** Vocabulary for the statements about the scheduler loop *)

(** Does the outcome of a transfer leave [perform_sync] as an exception?
    Only one outside the [Exception] hierarchy does. *)
Definition escapes (run : result unit) : bool :=
  match run with
  | Raise e => negb (is_Exception e)
  | Ok _ => false
  end.

(** A tick during which nobody stops the daemon and the transfer, if it
    goes wrong, goes wrong with an ordinary exception. *)
Definition ordinary_tick (t : Tick) : bool :=
  negb (tick_stop t) && negb (escapes (tick_run t)).

(** The sample daemon while it is watching. *)
Definition running_world : World :=
  set_daemon (set_is_running true (daemon sample_world)) sample_world.

(** A tick, 1000 seconds after the epoch, whose transfer raises: the
    operating system refuses to run the transfer program. *)
Definition failing_tick : Tick :=
  {| tick_now := 1000;
     tick_run := Raise OSError;
     tick_done := 1000;
     tick_stop := false |}.




(** ** Sample daemons for the exclusion rules *)

(** A daemon for [/home/u/proj] on the plain file system with the given
    rule list. *)
Definition daemon_with_rules (rules : option (list string)) : Daemon :=
  init plain_resolve
    {| cfg_local_path := "/home/u/proj/";
       remote_target := "u@host:/srv/proj/";
       exclude_patterns := rules;
       config_file := None |}.

(** The relative form and the bare name under which the matcher sees a
    file. *)
Definition seen_as (resolve : PurePath -> PurePath) (d : Daemon)
    (file_path : RawPath) : string * string :=
  let path := _coerce_path resolve d file_path in
  (_relative_path d path, name path).

(** ** Sample hosts for [start] *)

(** The calling process is 4242; a fork would put the daemon in the child
    4243; the first transfer succeeds; the interrupt arrives after two
    polls. *)
Definition sample_env : StartEnv :=
  {| env_getpid := 4242;
     env_time := 1000;
     env_fork := Ok 0%Z;
     env_child_pid := 4243;
     env_run := Ok tt;
     env_done := 1001;
     env_polls := 2 |}.

(** The record [start] builds for the sample daemon. *)
Definition sample_info : DaemonInfo :=
  {| pid := 4242;
     di_local_path := "/home/u/proj";
     di_remote_target := "u@host:/srv/proj/";
     di_config_file := ".csync.cfg";
     di_signature := ProcessManager.generate_signature "/home/u/proj";
     started_at := 1000;
     di_sync_count := 0;
     last_sync := None |}.

(** The sample world once the observer has been told what to watch. *)
Definition scheduled_world : World :=
  set_daemon
    (set_observer_watches ["/home/u/proj"] (daemon sample_world)) sample_world.

(** A host on which process 777 already runs a daemon for the sample
    directory. *)
Definition occupied_world : World :=
  {| daemon := init plain_resolve sample_config;
     registry :=
       {[ ProcessManager.generate_signature "/home/u/proj"
          := with_pid 777 sample_info ]};
     live_pids := {[ 777%Z ]};
     trace := [] |}.

(** ** Vocabulary for the statements about [start] *)

(** The record [start] builds before it forks. *)
Definition new_record (env : StartEnv) (d : Daemon) : DaemonInfo :=
  {| pid := env_getpid env;
     di_local_path := str (local_path d);
     di_remote_target := remote_target (config d);
     di_config_file := default ".csync.cfg" (config_file (config d));
     di_signature := signature d;
     started_at := env_time env;
     di_sync_count := 0;
     last_sync := None |}.

(** The world once [observer.schedule] has run. *)
Definition watch_scheduled (w : World) : World :=
  set_daemon
    (set_observer_watches
       (observer_watches (daemon w) ++ [str (local_path (daemon w))])%list
       (daemon w)) w.

(** What the scheduler thread finds in the trace when it starts. *)
Definition thread_started (d : Daemon) : list event :=
  [EvThreadStart;
   EvPrint (MsgWatching (str (local_path d)));
   EvPrint (MsgTarget (remote_target (config d)));
   EvPrint MsgInitialSync].

(** ** Streams of watcher events *)



(** A resolution that returns absolute paths in final form: resolving
    once more changes nothing. *)
Definition canonical (resolve : PurePath -> PurePath) : Prop :=
  forall q : PurePath,
    anchored q = true ->
    anchored (resolve q) = true /\ resolve (resolve q) = resolve q.



(** ** Vocabulary for the statements about [stop] and the ways out of
    [start] *)

(** The daemon object once it is stopped. *)
Definition stopped (d : Daemon) : Daemon :=
  set_observer_alive false (set_is_running false d).

(** A host on which [os.fork] returns in the parent with child 4243. *)
Definition parent_env : StartEnv :=
  {| env_getpid := 4242;
     env_time := 1000;
     env_fork := Ok 4243%Z;
     env_child_pid := 4243;
     env_run := Ok tt;
     env_done := 1001;
     env_polls := 2 |}.

(** A host on which [os.fork] fails. *)
Definition forkless_env : StartEnv :=
  {| env_getpid := 4242;
     env_time := 1000;
     env_fork := Raise OSError;
     env_child_pid := 4243;
     env_run := Ok tt;
     env_done := 1001;
     env_polls := 2 |}.

(** A host on which the operator interrupts the initial transfer. *)
Definition interrupted_env : StartEnv :=
  {| env_getpid := 4242;
     env_time := 1000;
     env_fork := Ok 0%Z;
     env_child_pid := 4243;
     env_run := Raise KeyboardInterrupt;
     env_done := 1001;
     env_polls := 2 |}.

(** ** Vocabulary for the statements about displayed paths *)

(** The order in which [perform_sync] lists changed files. *)
Definition posix_le (p q : PurePath) : Prop :=
  Is_true (String.leb (as_posix p) (as_posix q)).

(** How many lines the report prints for [n] changed files. *)
Definition report_length (n : nat) : nat :=
  if (n =? 0)%nat then 1%nat
  else if (n <=? 5)%nat then S n
  else 5%nat.

(** A file outside the sample project. *)
Definition outside_path : PurePath := mkPath true ["etc"; "passwd"].

(** ** Vocabulary for the statements about retries *)

(** The sample daemon with one change pending and its last sync at 900. *)
Definition busy_world : World :=
  set_daemon
    (set_pending_changes {[mkPath true ["home"; "u"; "proj"; "a.py"]]}
       (set_last_sync_time 900 (daemon running_world)))
    running_world.

(** Twenty quiet seconds: every tick of the sample daemon goes wrong the
    same way. *)
Definition failing_ticks : list Tick := replicate 20 failing_tick.

(** ** [CsyncConfig] (config.py) *)

From Stdlib Require DecimalString.

Module Config.

(** The fields of the dataclass, as given to the constructor or as left
    by [__post_init__]. *)
Record Settings : Type := mkSettings {
  local_path : string;
  remote_host : string;
  remote_path : string;
  ssh_user : option string;
  ssh_port : option Z;
  exclude_patterns : option (list string);
  rsync_options : option (list string);
  respect_gitignore : bool
}.

Definition default_rsync_options : list string := ["-av"; "--progress"].

Definition default_exclude_patterns : list string :=
  [".git/"; "__pycache__/"; "*.pyc"; ".DS_Store"; "node_modules/";
   ".venv/"; "venv/"; ".pytest_cache/"; "*.log"].

(** [if not s.endswith("/"): s += "/"]. *)
Definition ensure_slash (s : string) : string :=
  if PyStr.endswith_char "/" s then s else (s ++ "/")%string.

(** [pattern in patterns]. *)
Definition mentions (patterns : list string) (pattern : string) : bool :=
  existsb (String.eqb pattern) patterns.

(** The loop that appends the patterns of [.gitignore] that are not
    listed yet. *)
Fixpoint add_missing (patterns gitignore_patterns : list string)
    : list string :=
  match gitignore_patterns with
  | [] => patterns
  | pattern :: rest =>
      add_missing
        (if mentions patterns pattern then patterns
         else (patterns ++ [pattern])%list)
        rest
  end.

(** [__post_init__].  [abspath] stands for
    [os.path.abspath(os.path.expanduser(.))] and [gitignore_patterns] for
    what [_load_gitignore_patterns] read from the project's [.gitignore]
    (empty when there is none). *)
Definition post_init (abspath : string -> string)
    (gitignore_patterns : list string) (s : Settings) : Settings :=
  let excludes := default default_exclude_patterns (exclude_patterns s) in
  {| local_path := ensure_slash (abspath (local_path s));
     remote_host := remote_host s;
     remote_path := ensure_slash (remote_path s);
     ssh_user := ssh_user s;
     ssh_port := ssh_port s;
     exclude_patterns :=
       Some (if respect_gitignore s then
               match gitignore_patterns with
               | [] => excludes
               | _ => add_missing excludes gitignore_patterns
               end
             else excludes);
     rsync_options :=
       Some (default default_rsync_options (rsync_options s));
     respect_gitignore := respect_gitignore s |}.

(** The property [remote_target]; an empty user counts as none. *)
Definition remote_target (s : Settings) : string :=
  match ssh_user s with
  | Some (String c user) =>
      (String c user ++ "@" ++ remote_host s ++ ":" ++ remote_path s)%string
  | _ => (remote_host s ++ ":" ++ remote_path s)%string
  end.

(** Where [find_config_file] looks, in this order. *)
Definition config_names : list string :=
  [".csync.cfg"; ".csync_config"; ".csync_config.json";
   ".csync_config.yml"; ".csync_config.yaml"].

(** [p.parent]. *)
Definition parent (p : PurePath) : PurePath :=
  mkPath (anchored p) (removelast (parts p)).

(** The [while] loop of [find_config_file]; [file_exists] is
    [Path.exists] and [fuel] bounds the number of rounds. *)
Fixpoint search_upwards (file_exists : PurePath -> bool) (fuel : nat)
    (current_path : PurePath) : option string :=
  match fuel with
  | O => None
  | S fuel' =>
      if bool_decide (current_path = parent current_path) then None
      else
        match List.find
                (fun config_name =>
                   file_exists (joinpath current_path (Path config_name)))
                config_names with
        | Some config_name =>
            Some (str (joinpath current_path (Path config_name)))
        | None => search_upwards file_exists fuel' (parent current_path)
        end
  end.

(** [find_config_file]: every round drops one component, so one round
    more than there are components is enough. *)
Definition find_config_file (resolve : PurePath -> PurePath)
    (file_exists : PurePath -> bool) (start_path : string) : option string :=
  let current_path := resolve (Path start_path) in
  search_upwards file_exists (S (length (parts current_path))) current_path.

(** What the daemon reads of the settings. *)
Definition daemon_config (s : Settings) : CsyncConfig :=
  mkConfig (local_path s) (remote_target s) (exclude_patterns s) None.

End Config.

(** ** [RsyncWrapper._build_rsync_command] (rsync.py) *)

Module Rsync.

(** [str(n)] for an integer. *)
Definition str_of_int (n : Z) : string :=
  DecimalString.NilZero.string_of_int (Z.to_int n).

Definition _build_rsync_command (s : Config.Settings)
    (source destination : string) (dry_run : bool) : list string :=
  let options :=
    match Config.rsync_options s with
    | Some (o :: os) => o :: os
    | _ => []
    end in
  let dry := if dry_run then ["--dry-run"] else [] in
  let excludes :=
    match Config.exclude_patterns s with
    | Some patterns => flat_map (fun pattern => ["--exclude"; pattern]) patterns
    | None => []
    end in
  let ssh :=
    match Config.ssh_port s with
    | Some port =>
        if (port =? 0)%Z then []
        else ["-e"; ("ssh -p " ++ str_of_int port)%string]
    | None => []
    end in
  (["rsync"] ++ options ++ dry ++ excludes ++ ssh ++ [source; destination])%list.

(** The command [push] runs. *)
Definition push_command (s : Config.Settings) (dry_run : bool) : list string :=
  _build_rsync_command s (Config.local_path s) (Config.remote_target s) dry_run.

(** The command [pull] runs. *)
Definition pull_command (s : Config.Settings) (dry_run : bool) : list string :=
  _build_rsync_command s (Config.remote_target s) (Config.local_path s) dry_run.

End Rsync.

(** ** Sample settings *)

(** The home directory is [/home/u] and the current directory the
    project. *)
Definition sample_abspath (path : string) : string :=
  if String.eqb path "." then "/home/u/proj" else path.

Definition sample_settings : Config.Settings :=
  {| Config.local_path := ".";
     Config.remote_host := "host";
     Config.remote_path := "/srv/proj";
     Config.ssh_user := Some "u";
     Config.ssh_port := Some 2222%Z;
     Config.exclude_patterns := Some ["build/"; "*.log"];
     Config.rsync_options := None;
     Config.respect_gitignore := true |}.

Definition sample_gitignore : list string :=
  ["*.log"; "dist/"; "dist/"; ".env"].

(** A file system whose only configuration file is
    [/home/u/.csync_config.json]. *)
Definition sample_exists (p : PurePath) : bool :=
  bool_decide (p = mkPath true ["home"; "u"; ".csync_config.json"]).

(** ** Vocabulary for the statements about [find_config_file] *)

(** The directory made of the first [k] components of [p]. *)
Definition ancestor (p : PurePath) (k : nat) : PurePath :=
  mkPath (anchored p) (take k (parts p)).

(** The file called [name] in [dir]. *)
Definition file_in (dir : PurePath) (name : string) : PurePath :=
  joinpath dir (Path name).

(** No configuration file, under any of the five names, lies in [dir]. *)
Definition no_config_in (file_exists : PurePath -> bool) (dir : PurePath)
    : Prop :=
  forall name, In name Config.config_names -> file_exists (file_in dir name) = false.

(** ** Vocabulary for further statements about the matcher *)

(** A rule written with nothing but slashes and backslashes. *)
Fixpoint only_slashes (rule : string) : bool :=
  match rule with
  | EmptyString => true
  | String c rest =>
      (Ascii.eqb c "/" || Ascii.eqb c "\") && only_slashes rest
  end.
(** * Properties *)

Local Open Scope list_scope.

(** ** The trigger condition of the scheduler *)

Lemma Qgtb_true (a b : Q) : Qgtb a b = true <-> (b < a)%Q.
Proof.
  unfold Qgtb. rewrite negb_true_iff, <- not_true_iff_false, Qle_bool_iff.
  split; [apply Qnot_le_lt | apply Qlt_not_le].
Qed.

Lemma Qgtb_false (a b : Q) : Qgtb a b = false <-> (a <= b)%Q.
Proof.
  unfold Qgtb. rewrite negb_false_iff. apply Qle_bool_iff.
Qed.

Lemma should_sync_now_iff (d : Daemon) (now : Q) :
  should_sync_now d now = true <->
  (max_sync_interval d < now - last_sync_time d)%Q
  \/ (pending_changes d <> ∅ /\ (sync_delay d < now - last_sync_time d)%Q).
Proof.
  unfold should_sync_now.
  destruct (Qgtb (now - last_sync_time d) (max_sync_interval d)) eqn:Hmax.
  - apply Qgtb_true in Hmax. tauto.
  - apply Qgtb_false in Hmax.
    destruct (Qgtb (now - last_sync_time d) (sync_delay d)) eqn:Hdelay.
    + apply Qgtb_true in Hdelay. rewrite andb_true_r.
      case_bool_decide as Hpending; simpl.
      * split; [discriminate |].
        intros [Hforce | [Hne _]]; [| contradiction].
        exfalso. revert Hforce. apply Qle_not_lt, Hmax.
      * split; [right; auto | reflexivity].
    + apply Qgtb_false in Hdelay. rewrite andb_false_r.
      split; [discriminate |].
      intros [Hforce | [_ Hdeb]]; exfalso.
      * revert Hforce. apply Qle_not_lt, Hmax.
      * revert Hdeb. apply Qle_not_lt, Hdelay.
Qed.

(** C1.  A tick fires a sync exactly when the forced trigger holds (more
    than [max_sync_interval] since the last sync, pending changes or not)
    or the debounced one does (some change is pending and more than
    [sync_delay] has passed since the last sync).  A daemon starts with a
    delay of 5 and a maximal interval of 300, and with the last sync at
    [T]: no pending change and the clock at [T + 301] fires; one pending
    change fires at [T + 6] and does not fire at [T + 4]. *)
Theorem scheduler_trigger_condition :
  (forall (d : Daemon) (now : Q),
      should_sync_now d now = true <->
      (max_sync_interval d < now - last_sync_time d)%Q
      \/ (pending_changes d <> ∅
          /\ (sync_delay d < now - last_sync_time d)%Q))
  /\ (forall resolve cfg,
         sync_delay (init resolve cfg) = 5%Q
         /\ max_sync_interval (init resolve cfg) = 300%Q
         /\ pending_changes (init resolve cfg) = ∅)
  /\ (forall resolve cfg (T : Q) (change : PurePath),
         let idle := set_last_sync_time T (init resolve cfg) in
         let busy := set_pending_changes {[change]} idle in
         should_sync_now idle (T + 301) = true
         /\ should_sync_now busy (T + 6) = true
         /\ should_sync_now busy (T + 4) = false).
Proof.
  split; [exact should_sync_now_iff |].
  split; [intros; repeat split |].
  intros resolve cfg T change idle busy. repeat split.
  - apply should_sync_now_iff. left. simpl. lra.
  - apply should_sync_now_iff. right. simpl. split; [| lra].
    apply non_empty_singleton_L.
  - apply not_true_iff_false. rewrite should_sync_now_iff. simpl.
    intros [H | [_ H]]; lra.
Qed.

(** ** The change coalescer *)

Lemma set_daemon_same (w : World) :
  set_daemon (set_pending_changes (pending_changes (daemon w)) (daemon w)) w = w.
Proof. by destruct w as [[] ? ? ?]. Qed.

Lemma get_pending_changes_step (w : World) :
  get_pending_changes w
  = (set_daemon (set_pending_changes ∅ (daemon w)) w,
     Ok (pending_changes (daemon w))).
Proof. reflexivity. Qed.

Lemma add_pending_change_step resolve (file_path : RawPath) (w : World) :
  add_pending_change resolve file_path w
  = (set_daemon
       (set_pending_changes
          (pending_changes (daemon w)
             ∪ {[_coerce_path resolve (daemon w) file_path]}) (daemon w)) w,
     Ok tt).
Proof. reflexivity. Qed.

(** Running a history only touches the pending set, and returns what the
    list of calls says. *)
Lemma coalescer_run_history resolve (calls : list coalescer_call) :
  forall w : World,
    let coerce := _coerce_path resolve (daemon w) in
    coalescer_run resolve calls w
    = (set_daemon
         (set_pending_changes
            (history_pending coerce (pending_changes (daemon w)) calls)
            (daemon w)) w,
       Ok (history_drains coerce (pending_changes (daemon w)) calls)).
Proof.
  induction calls as [| [file_path |] rest IH]; intros w coerce.
  - simpl. unfold ret. by rewrite set_daemon_same.
  - cbn [coalescer_run]. unfold bind at 1.
    rewrite add_pending_change_step, IH.
    by destruct w as [[] ? ? ?].
  - cbn [coalescer_run]. unfold bind at 1.
    rewrite get_pending_changes_step. unfold bind at 1. rewrite IH.
    by destruct w as [[] ? ? ?].
Qed.

Lemma drain_results_history resolve calls (w : World) :
  drain_results resolve calls w
  = history_drains (_coerce_path resolve (daemon w))
      (pending_changes (daemon w)) calls.
Proof. unfold drain_results. by rewrite coalescer_run_history. Qed.

Lemma count_drains_app (xs ys : list coalescer_call) :
  count_drains (xs ++ ys) = (count_drains xs + count_drains ys)%nat.
Proof. unfold count_drains. by rewrite List.filter_app, length_app. Qed.

Lemma history_drains_length coerce (calls : list coalescer_call) :
  forall acc, length (history_drains coerce acc calls) = count_drains calls.
Proof.
  induction calls as [| [file_path |] rest IH]; intros acc; simpl; auto.
  unfold count_drains in *. simpl. by rewrite IH.
Qed.

(** Records up to the next drain all land in that drain. *)
Lemma history_drains_records coerce (files : list RawPath) post :
  forall acc,
    history_drains coerce acc ((CallRecord <$> files) ++ CallDrain :: post)
    = (acc ∪ list_to_set (coerce <$> files))
        :: history_drains coerce ∅ post.
Proof.
  induction files as [| f files IH]; intros acc; simpl.
  - f_equal. by rewrite (right_id_L ∅ (∪)).
  - rewrite IH. f_equal. by rewrite (assoc_L (∪)).
Qed.

Lemma history_no_loss coerce file_path files post (pre : list coalescer_call) :
  forall acc, exists s,
    history_drains coerce acc
      (pre ++ CallRecord file_path :: (CallRecord <$> files) ++ CallDrain :: post)
      !! count_drains pre = Some s
    /\ coerce file_path ∈ s.
Proof.
  induction pre as [| [g |] pre IH]; intros acc.
  - simpl. rewrite history_drains_records. eexists. split; [reflexivity |].
    set_solver.
  - simpl. apply IH.
  - simpl. apply (IH ∅).
Qed.

(** A history with a first drain result is a run of records, a drain and
    the rest. *)
Lemma history_first_drain coerce (calls : list coalescer_call) :
  forall acc s,
    history_drains coerce acc calls !! 0%nat = Some s ->
    exists files post, calls = (CallRecord <$> files) ++ CallDrain :: post.
Proof.
  induction calls as [| [h |] rest IH]; intros acc s Hs.
  - discriminate.
  - simpl in Hs. destruct (IH _ _ Hs) as (files & post & ->).
    by exists (h :: files), post.
  - by exists [], rest.
Qed.

(** Whatever a drain returns was pending at the start and never drained
    before, or was recorded since the previous drain. *)
Lemma history_origin coerce (calls : list coalescer_call) :
  forall acc j s p,
    history_drains coerce acc calls !! j = Some s ->
    p ∈ s ->
    (j = 0%nat /\ p ∈ acc)
    \/ exists pre file_path files post,
        calls = pre ++ CallRecord file_path
                  :: (CallRecord <$> files) ++ CallDrain :: post
        /\ count_drains pre = j
        /\ coerce file_path = p.
Proof.
  induction calls as [| [g |] rest IH]; intros acc j s p Hj Hp.
  - discriminate.
  - simpl in Hj. destruct (IH _ _ _ _ Hj Hp) as [[-> Hacc] | Hrec].
    + apply elem_of_union in Hacc as [Hacc | Hg]; [by left |].
      apply elem_of_singleton in Hg. right.
      (* the first drain of [rest] closes the interval of [g] *)
      destruct (history_first_drain _ _ _ _ Hj) as (files & post & ->).
      by exists [], g, files, post.
    + right. destruct Hrec as (pre & f & files & post & -> & Hcount & Hf).
      by exists (CallRecord g :: pre), f, files, post.
  - simpl in Hj. destruct j as [| j].
    + left. split; [done |]. simpl in Hj. by simplify_eq.
    + simpl in Hj. right.
      destruct (IH _ _ _ _ Hj Hp) as [[_ Hacc] | Hrec]; [set_solver |].
      destruct Hrec as (pre & f & files & post & -> & Hcount & Hf).
      exists (CallDrain :: pre), f, files, post.
      split; [done |]. split; [| done].
      unfold count_drains in *. simpl. by rewrite Hcount.
Qed.

(** C2.  A drain returns the pending set as it stands and leaves it
    empty, touching nothing else.  Every history of record and drain
    calls runs to the end with one result per drain; a path recorded
    before a drain is in the result of the first drain that follows the
    record call (no loss); and, starting with nothing pending, a path in
    the result of drain [j] was recorded between drain [j - 1] and drain
    [j], so a record call is never answered by a second drain (no
    duplication). *)
Theorem coalescer_exactly_once :
  (forall w : World,
      get_pending_changes w
      = (set_daemon (set_pending_changes ∅ (daemon w)) w,
         Ok (pending_changes (daemon w))))
  /\ (forall resolve calls (w : World),
         exists w' results,
           coalescer_run resolve calls w = (w', Ok results)
           /\ length results = count_drains calls)
  /\ (forall resolve (w : World) pre file_path files post,
         exists s,
           drain_results resolve
             (pre ++ CallRecord file_path
                :: (CallRecord <$> files) ++ CallDrain :: post) w
             !! count_drains pre = Some s
           /\ _coerce_path resolve (daemon w) file_path ∈ s)
  /\ (forall resolve (w : World) calls (j : nat) s p,
         pending_changes (daemon w) = ∅ ->
         drain_results resolve calls w !! j = Some s ->
         p ∈ s ->
         exists pre file_path files post,
           calls = pre ++ CallRecord file_path
                     :: (CallRecord <$> files) ++ CallDrain :: post
           /\ count_drains pre = j
           /\ _coerce_path resolve (daemon w) file_path = p).
Proof.
  split; [exact get_pending_changes_step |].
  split.
  { intros resolve calls w. do 2 eexists. split.
    - apply coalescer_run_history.
    - apply history_drains_length. }
  split.
  { intros resolve w pre file_path files post.
    rewrite drain_results_history. apply history_no_loss. }
  intros resolve w calls j s p Hempty Hj Hp.
  rewrite drain_results_history, Hempty in Hj.
  destruct (history_origin _ _ _ _ _ _ Hj Hp) as [[_ Hacc] | Hrec];
    [set_solver | exact Hrec].
Qed.

(** C2 at work: record [a.txt], drain, record [b.txt], drain.  The path
    found in the second result comes from a record call made after the
    first drain. *)
Lemma coalescer_exactly_once_witness :
  exists pre file_path files post,
    [CallRecord (RawStr "a.txt"); CallDrain;
     CallRecord (RawStr "b.txt"); CallDrain]
    = pre ++ CallRecord file_path
        :: (CallRecord <$> files) ++ CallDrain :: post
    /\ count_drains pre = 1%nat
    /\ _coerce_path plain_resolve (daemon sample_world) file_path
       = mkPath true ["home"; "u"; "proj"; "b.txt"].
Proof.
  apply (proj2 (proj2 (proj2 coalescer_exactly_once))
           plain_resolve sample_world _ 1%nat
           {[mkPath true ["home"; "u"; "proj"; "b.txt"]]}).
  - reflexivity.
  - vm_compute. reflexivity.
  - apply elem_of_singleton. reflexivity.
Defined.

(** ** One synchronisation pass *)

Lemma printed_nil (w : World) : printed [] w = w.
Proof. destruct w. unfold printed. simpl. by rewrite app_nil_r. Qed.

Lemma printed_emit (l : line) (lines : list line) (w : World) :
  printed lines (emit (EvPrint l) w) = printed (l :: lines) w.
Proof. unfold printed, emit. simpl. by rewrite <- app_assoc. Qed.

Lemma printed_printed (ls1 ls2 : list line) (w : World) :
  printed ls2 (printed ls1 w) = printed (ls1 ++ ls2) w.
Proof. unfold printed. simpl. by rewrite fmap_app, app_assoc. Qed.

Lemma for_each_print {A} (f : A -> line) (xs : list A) :
  forall w : World,
    for_each xs (fun x => console_print (f x)) w
    = (printed (f <$> xs) w, Ok tt).
Proof.
  induction xs as [| x xs IH]; intros w; simpl.
  - unfold ret. by rewrite printed_nil.
  - unfold bind. cbn [console_print do_event modify].
    by rewrite IH, printed_emit.
Qed.

(** The report only prints. *)
Lemma report_changes_prints (changes : gset PurePath) (w : World) :
  exists lines, report_changes changes w = (printed lines w, Ok tt).
Proof.
  unfold report_changes, bind. cbn [self].
  destruct (negb (bool_decide (changes = ∅))).
  - cbn [console_print do_event modify].
    destruct (size changes <=? 5)%nat.
    + rewrite for_each_print. eexists. by rewrite printed_emit.
    + unfold bind. rewrite for_each_print.
      cbn [console_print do_event modify].
      eexists (_ :: _ ++ [_]).
      by rewrite <- printed_emit, <- printed_printed, <- (printed_emit _ []),
        printed_nil.
  - exists [MsgScheduled]. cbn [console_print do_event modify].
    by rewrite <- (printed_emit _ []), printed_nil.
Qed.

(** What one call of [perform_sync] does, for every outcome of the
    transfer: the pending set is emptied, some lines are printed, the
    transfer is attempted once, and counters and registry follow the
    outcome. *)
Lemma perform_sync_outcome (run : result unit) (now : Q) (w : World) :
  exists lines,
    perform_sync run now w
    = (mkWorld (synced_daemon run now (daemon w)) (synced_registry run now w)
         (live_pids w)
         (trace w ++ (EvPrint <$> lines)
            ++ [EvRsyncPush (cfg_local_path (config (daemon w)))
                  (remote_target (config (daemon w)))]
            ++ (EvPrint <$> sync_epilogue run)),
       sync_answer run).
Proof.
  unfold perform_sync, try_except.
  unfold bind at 1. rewrite get_pending_changes_step.
  unfold bind at 1.
  destruct (report_changes_prints (pending_changes (daemon w))
              (set_daemon (set_pending_changes ∅ (daemon w)) w))
    as [lines ->].
  exists lines.
  destruct w as [d reg live tr].
  destruct run as [[] | e]; [| destruct e];
    cbv [bind ret raise push self do_event modify modify_daemon console_print
         emit set_registry set_daemon printed is_Exception
         ProcessManager.update_daemon_stats daemon registry live_pids trace
         sync_answer sync_epilogue synced_daemon synced_registry];
    cbn [fmap list_fmap app]; rewrite <- ?app_assoc; reflexivity.
Qed.

Lemma count_pushes_app (xs ys : list event) :
  count_pushes (xs ++ ys) = (count_pushes xs + count_pushes ys)%nat.
Proof. unfold count_pushes. by rewrite List.filter_app, length_app. Qed.

Lemma count_pushes_prints (lines : list line) :
  count_pushes (EvPrint <$> lines) = 0%nat.
Proof. induction lines as [| l lines IH]; [done | exact IH]. Qed.

Lemma sleeps_of_app (xs ys : list event) :
  sleeps_of (xs ++ ys) = sleeps_of xs ++ sleeps_of ys.
Proof. apply omap_app. Qed.

Lemma sleeps_of_prints (lines : list line) : sleeps_of (EvPrint <$> lines) = [].
Proof. induction lines as [| l lines IH]; [done | exact IH]. Qed.

(** C3.  Whatever the transfer does (it succeeds, it fails, it raises an
    exception that [perform_sync] catches, or one that escapes), the
    pending set is empty once [perform_sync] is over and the transfer has
    been attempted exactly once: the changes were taken out before the
    transfer and are not put back. *)
Theorem perform_sync_drains_before_transfer :
  forall (run : result unit) (now : Q) (w : World),
    pending_changes (daemon (fst (perform_sync run now w))) = ∅
    /\ (exists lines after,
           trace (fst (perform_sync run now w))
           = trace w ++ (EvPrint <$> lines)
               ++ EvRsyncPush (cfg_local_path (config (daemon w)))
                    (remote_target (config (daemon w)))
               :: after
           /\ count_pushes after = 0%nat)
    /\ snd (perform_sync run now w) = sync_answer run.
Proof.
  intros run now w.
  destruct (perform_sync_outcome run now w) as [lines ->]. simpl.
  split; [by destruct run |].
  split; [| done].
  exists lines, (EvPrint <$> sync_epilogue run).
  split; [done | apply count_pushes_prints].
Qed.

(** C4.  After a successful transfer [sync_count] is one more,
    [last_sync_time] is the current time and the registry record under
    the daemon's canonical path carries both; after a transfer that
    failed or raised, the two counters and the registry are as before and
    the call does not report success. *)
Theorem perform_sync_statistics :
  (forall (now : Q) (w : World),
      let w' := fst (perform_sync (Ok tt) now w) in
      let key :=
        ProcessManager.generate_signature (str (local_path (daemon w))) in
      snd (perform_sync (Ok tt) now w) = Ok true
      /\ sync_count (daemon w') = (sync_count (daemon w) + 1)%Z
      /\ last_sync_time (daemon w') = now
      /\ registry w'
         = alter (ProcessManager.record_stats now (sync_count (daemon w')))
             key (registry w)
      /\ registry w' !! key
         = ProcessManager.record_stats (last_sync_time (daemon w'))
             (sync_count (daemon w')) <$> registry w !! key)
  /\ (forall (e : exn) (now : Q) (w : World),
         let w' := fst (perform_sync (Raise e) now w) in
         snd (perform_sync (Raise e) now w) <> Ok true
         /\ sync_count (daemon w') = sync_count (daemon w)
         /\ last_sync_time (daemon w') = last_sync_time (daemon w)
         /\ registry w' = registry w).
Proof.
  split.
  - intros now w.
    destruct (perform_sync_outcome (Ok tt) now w) as [lines ->]. simpl.
    repeat split. by rewrite lookup_alter_eq.
  - intros e now w.
    destruct (perform_sync_outcome (Raise e) now w) as [lines ->]. simpl.
    repeat split. by destruct (is_Exception e).
Qed.

(** ** The scheduler loop *)

Lemma perform_sync_frame (run : result unit) (now : Q) (w : World) :
  is_running (daemon (fst (perform_sync run now w))) = is_running (daemon w)
  /\ sleeps_of (trace (fst (perform_sync run now w))) = sleeps_of (trace w).
Proof.
  destruct (perform_sync_outcome run now w) as [lines ->]. simpl.
  split; [by destruct run |].
  rewrite !sleeps_of_app, !sleeps_of_prints. simpl.
  by rewrite sleeps_of_prints, app_nil_r.
Qed.

Lemma sync_answer_caught (run : result unit) :
  escapes run = false -> exists b, sync_answer run = Ok b.
Proof.
  destruct run as [[] | e]; simpl; [by exists true |].
  rewrite negb_false_iff. intros ->. by exists false.
Qed.

(** With [perform_sync] as executor a tick ends in the normal sleep,
    unless the transfer raised outside the [Exception] hierarchy. *)
Lemma sync_loop_body_normal (run : result unit) (done now : Q) (w : World) :
  escapes run = false ->
  sync_loop_body (perform_sync run done) now w
  = (emit (EvSleep 1)
       (if should_sync_now (daemon w) now
        then fst (perform_sync run done w) else w),
     Ok tt).
Proof.
  intros Hrun. unfold sync_loop_body, try_except, bind. cbn [self].
  destruct (should_sync_now (daemon w) now); [| reflexivity].
  destruct (sync_answer_caught run Hrun) as [b Hb].
  destruct (perform_sync_outcome run done w) as [lines Hout].
  rewrite Hout, Hb. reflexivity.
Qed.

Lemma sync_loop_stopped (ticks : list Tick) (w : World) :
  is_running (daemon w) = false -> sync_loop ticks w = (w, Ok LoopStopped).
Proof.
  intros Hstop. unfold sync_loop.
  destruct ticks; cbn [sync_loop_with]; unfold bind; cbn [self];
    by rewrite Hstop.
Qed.

Lemma sync_loop_goes_on (ticks : list Tick) :
  forall w : World,
    is_running (daemon w) = true ->
    forallb ordinary_tick ticks = true ->
    exists w',
      sync_loop ticks w = (w', Ok LoopStillRunning)
      /\ is_running (daemon w') = true
      /\ sleeps_of (trace w')
         = sleeps_of (trace w) ++ replicate (length ticks) 1%Q.
Proof.
  unfold sync_loop.
  induction ticks as [| t rest IH]; intros w Hrun Hticks.
  - exists w. cbn [sync_loop_with]. unfold bind. cbn [self]. rewrite Hrun.
    simpl. by rewrite app_nil_r.
  - simpl in Hticks. apply andb_true_iff in Hticks as [Ht Hrest].
    unfold ordinary_tick in Ht. apply andb_true_iff in Ht as [Hstop Hesc].
    apply negb_true_iff in Hstop, Hesc.
    cbn [sync_loop_with]. unfold bind at 1. cbn [self]. rewrite Hrun.
    unfold bind at 1. rewrite (sync_loop_body_normal _ _ _ _ Hesc).
    unfold bind at 1. rewrite Hstop. cbn [ret].
    set (w1 := emit _ _).
    destruct (perform_sync_frame (tick_run t) (tick_done t) w)
      as [Hkeep Hsleeps].
    assert (is_running (daemon w1) = true) as Hrun1.
    { subst w1. simpl. destruct (should_sync_now (daemon w) (tick_now t));
        [by rewrite Hkeep | done]. }
    assert (sleeps_of (trace w1) = sleeps_of (trace w) ++ [1%Q]) as Hs1.
    { subst w1. simpl. rewrite sleeps_of_app. simpl.
      destruct (should_sync_now (daemon w) (tick_now t));
        [by rewrite Hsleeps | done]. }
    destruct (IH w1 Hrun1 Hrest) as (w' & Hloop & Hrun' & Hs').
    exists w'. split; [exact Hloop |]. split; [exact Hrun' |].
    rewrite Hs', Hs1, <- app_assoc. reflexivity.
Qed.

(** A failure of the transfer itself does not reach the handler of the
    loop: a tick fires (the clock reads 1000 and the last sync is at 0),
    the transfer raises [OSError], [perform_sync] reports it and returns,
    and the tick ends in the sleep of 1 second. *)
Lemma transfer_error_is_handled_by_perform_sync :
  let w' := fst (sync_loop [failing_tick] running_world) in
  should_sync_now (daemon running_world) (tick_now failing_tick) = true
  /\ sleeps_of (trace w') = [1%Q]
  /\ snd (sync_loop [failing_tick] running_world) = Ok LoopStillRunning
  /\ EvPrint (MsgSyncError OSError) ∈ trace w'
  /\ EvPrint (MsgDaemonError OSError) ∉ trace w'.
Proof.
  vm_compute. repeat split.
  - apply list_elem_of_In. simpl. tauto.
  - intros Hin. apply list_elem_of_In in Hin. simpl in Hin.
    repeat (destruct Hin as [Hin | Hin]; [discriminate |]). exact Hin.
Qed.










(** ** The exclusion matcher *)

Lemma replace_char_app (a b : ascii) (s t : string) :
  PyStr.replace_char a b (s ++ t)%string
  = (PyStr.replace_char a b s ++ PyStr.replace_char a b t)%string.
Proof. induction s as [| c s IH]; simpl; [done | by rewrite IH]. Qed.

Lemma endswith_char_snoc (c : ascii) (s : string) :
  PyStr.endswith_char c (s ++ String c EmptyString)%string = true.
Proof.
  induction s as [| d s IH]; simpl.
  - apply Ascii.eqb_refl.
  - destruct s; simpl in *; [apply Ascii.eqb_refl | exact IH].
Qed.

Lemma rstrip_char_snoc (c : ascii) (s : string) :
  PyStr.rstrip_char c (s ++ String c EmptyString)%string
  = PyStr.rstrip_char c s.
Proof.
  induction s as [| d s IH]; simpl.
  - by rewrite Ascii.eqb_refl.
  - by rewrite IH.
Qed.

Lemma prefix_rstrip_char (c : ascii) (s : string) :
  String.prefix (PyStr.rstrip_char c s) s = true.
Proof.
  induction s as [| d s IH]; simpl; [done |].
  destruct (PyStr.rstrip_char c s) eqn:Hr.
  - destruct (Ascii.eqb d c); simpl; [done |].
    destruct (ascii_dec d d); [by destruct s | done].
  - simpl. destruct (ascii_dec d d); [exact IH | done].
Qed.

Lemma prefix_trans (a b r : string) :
  String.prefix a b = true -> String.prefix b r = true ->
  String.prefix a r = true.
Proof.
  revert b r. induction a as [| x a IH]; intros b r Hab Hbr; [by destruct r |].
  destruct b as [| y b]; [discriminate Hab |].
  destruct r as [| z r]; [discriminate Hbr |].
  simpl in *.
  destruct (ascii_dec x y) as [-> |]; [| done].
  destruct (ascii_dec y z) as [-> |]; [| done].
  by apply (IH b r).
Qed.

Lemma any_pattern_excludes_In (rel_path file_name pattern : string)
    (patterns : list string) :
  In pattern patterns ->
  pattern_excludes rel_path file_name pattern = true ->
  any_pattern_excludes rel_path file_name patterns = true.
Proof.
  intros Hin Hex. induction patterns as [| p ps IH]; [done |].
  simpl. destruct (pattern_excludes rel_path file_name p) eqn:Hp; [done |].
  destruct Hin as [-> | Hin]; [congruence | by apply IH].
Qed.

(** A rule that reads, once normalised, as neither a directory rule nor a
    glob excludes by equality with the normalised text. *)
Lemma pattern_excludes_exact (rel_path file_name pattern : string) :
  let normalized := PyStr.replace_char "\" "/" pattern in
  PyStr.endswith_char "/" normalized = false ->
  PyStr.contains_char "*" normalized = false ->
  pattern_excludes rel_path file_name pattern = true
  <-> rel_path = normalized \/ file_name = normalized.
Proof.
  intros normalized Hdir Hglob. unfold pattern_excludes.
  fold normalized. rewrite Hdir, Hglob, orb_true_iff.
  by rewrite !String.eqb_eq.
Qed.

(** A directory rule excludes by prefix with the normalised text. *)
Lemma pattern_excludes_prefix (rel_path file_name X : string) :
  PyStr.startswith rel_path (PyStr.replace_char "\" "/" X) = true ->
  pattern_excludes rel_path file_name (X ++ "/")%string = true.
Proof.
  intros Hpre. unfold pattern_excludes.
  rewrite replace_char_app.
  change (PyStr.replace_char "\" "/" "/") with "/"%string.
  rewrite endswith_char_snoc, rstrip_char_snoc.
  unfold PyStr.startswith in *.
  eapply prefix_trans; [apply prefix_rstrip_char | exact Hpre].
Qed.

Lemma should_exclude_file_seen resolve (d : Daemon) (file_path : RawPath) :
  should_exclude_file resolve d file_path
  = match exclude_patterns (config d) with
    | None => false
    | Some patterns =>
        any_pattern_excludes (fst (seen_as resolve d file_path))
          (snd (seen_as resolve d file_path)) patterns
    end.
Proof.
  unfold should_exclude_file, seen_as. simpl.
  by destruct (exclude_patterns (config d)) as [[| p ps] |].
Qed.

(** C6, as claimed, fails for a rule written with a backslash: the rule
    [docs\api] has no wildcard and no trailing slash, yet it excludes the
    file whose relative form is [docs/api] and whose name is [api], neither
    of which equals the rule; and it does not exclude the file that is
    named exactly like the rule. *)
Lemma backslash_rule_is_not_matched_literally :
  let rule := "docs\api"%string in
  let d := daemon_with_rules (Some [rule]) in
  PyStr.contains_char "*" rule = false
  /\ PyStr.endswith_char "/" rule = false
  /\ seen_as plain_resolve d (RawStr "docs/api")
     = ("docs/api", "api")%string
  /\ "docs/api"%string <> rule
  /\ "api"%string <> rule
  /\ should_exclude_file plain_resolve d (RawStr "docs/api") = true
  /\ seen_as plain_resolve d (RawStr rule) = (rule, rule)
  /\ should_exclude_file plain_resolve d (RawStr rule) = false.
Proof. vm_compute. repeat split; discriminate. Qed.

(** C6, amended.  The matcher does not act on the world, and its answer
    depends on the daemon only through the rule list and the watched
    root.  Without rules, or with an empty list, nothing is excluded.
    The rule [build/] excludes [build/x.o] and [build/sub/y] but not
    [not_build/x]; the rule [*.log] excludes [a.log] and [dir/b.log] but
    not [a.log.txt].  A rule that, after its backslashes are replaced by
    forward slashes, has neither wildcard nor trailing slash excludes
    exactly the files whose relative form or bare name equals that
    normalised rule. *)
Theorem exclusion_matcher_rules :
  (forall resolve (d1 d2 : Daemon) (file_path : RawPath),
      exclude_patterns (config d1) = exclude_patterns (config d2) ->
      local_path d1 = local_path d2 ->
      should_exclude_file resolve d1 file_path
      = should_exclude_file resolve d2 file_path)
  /\ (forall resolve (d : Daemon) (file_path : RawPath),
         exclude_patterns (config d) = None
         \/ exclude_patterns (config d) = Some [] ->
         should_exclude_file resolve d file_path = false)
  /\ (let d := daemon_with_rules (Some ["build/"%string]) in
      should_exclude_file plain_resolve d (RawStr "build/x.o") = true
      /\ should_exclude_file plain_resolve d (RawStr "build/sub/y") = true
      /\ should_exclude_file plain_resolve d (RawStr "not_build/x") = false)
  /\ (let d := daemon_with_rules (Some ["*.log"%string]) in
      should_exclude_file plain_resolve d (RawStr "a.log") = true
      /\ should_exclude_file plain_resolve d (RawStr "dir/b.log") = true
      /\ should_exclude_file plain_resolve d (RawStr "a.log.txt") = false)
  /\ (forall resolve (d : Daemon) (file_path : RawPath) (rule : string),
         let normalized := PyStr.replace_char "\" "/" rule in
         exclude_patterns (config d) = Some [rule] ->
         PyStr.endswith_char "/" normalized = false ->
         PyStr.contains_char "*" normalized = false ->
         should_exclude_file resolve d file_path = true
         <-> fst (seen_as resolve d file_path) = normalized
             \/ snd (seen_as resolve d file_path) = normalized).
Proof.
  split.
  { intros resolve d1 d2 file_path Hrules Hroot.
    unfold should_exclude_file, _coerce_path, _relative_path.
    by rewrite Hrules, Hroot. }
  split.
  { intros resolve d file_path Hnone. unfold should_exclude_file.
    by destruct Hnone as [-> | ->]. }
  split; [vm_compute; tauto |].
  split; [vm_compute; tauto |].
  intros resolve d file_path rule normalized Hrules Hdir Hglob.
  subst normalized.
  rewrite should_exclude_file_seen, Hrules. simpl.
  rewrite <- (pattern_excludes_exact _ _ rule Hdir Hglob).
  by destruct (pattern_excludes _ _ rule).
Qed.

(** C6 amended, at work on the rule [docs\api]. *)
Lemma exclusion_matcher_rules_witness :
  should_exclude_file plain_resolve
    (daemon_with_rules (Some ["docs\api"%string])) (RawStr "docs/api") = true
  <-> fst (seen_as plain_resolve
             (daemon_with_rules (Some ["docs\api"%string])) (RawStr "docs/api"))
      = "docs/api"%string
      \/ snd (seen_as plain_resolve
                (daemon_with_rules (Some ["docs\api"%string]))
                (RawStr "docs/api"))
         = "docs/api"%string.
Proof.
  apply (proj2 (proj2 (proj2 (proj2 exclusion_matcher_rules)))
           plain_resolve (daemon_with_rules (Some ["docs\api"%string]))
           (RawStr "docs/api") "docs\api"%string); reflexivity.
Defined.

(** C9, as claimed, fails for a rule written with a backslash: with the
    rule [a\b/] the relative path [a\b/x] begins with the text before the
    slash and is not excluded. *)
Lemma backslash_directory_rule_misses_its_prefix :
  let X := "a\b"%string in
  let d := daemon_with_rules (Some [(X ++ "/")%string]) in
  seen_as plain_resolve d (RawStr "a\b/x") = ("a\b/x", "x")%string
  /\ PyStr.startswith "a\b/x" X = true
  /\ should_exclude_file plain_resolve d (RawStr "a\b/x") = false.
Proof. vm_compute. tauto. Qed.

(** C9, amended.  A rule [X/] is matched by plain text prefix against the
    relative path, with no regard to component boundaries: every relative
    path that begins with [X], read with its backslashes replaced by
    forward slashes, is excluded, whatever else the rule list holds.  So
    the rule [build/] excludes [buildings/x] as well as [build/x.o]. *)
Theorem directory_rule_is_text_prefix :
  (forall (X rel_path file_name : string),
      PyStr.startswith rel_path (PyStr.replace_char "\" "/" X) = true ->
      pattern_excludes rel_path file_name (X ++ "/")%string = true)
  /\ (forall resolve (d : Daemon) (file_path : RawPath) (X : string)
             (patterns : list string),
         exclude_patterns (config d) = Some patterns ->
         In (X ++ "/")%string patterns ->
         PyStr.startswith (fst (seen_as resolve d file_path))
           (PyStr.replace_char "\" "/" X) = true ->
         should_exclude_file resolve d file_path = true)
  /\ (let d := daemon_with_rules (Some ["build/"%string]) in
      fst (seen_as plain_resolve d (RawStr "buildings/x")) = "buildings/x"%string
      /\ should_exclude_file plain_resolve d (RawStr "buildings/x") = true
      /\ should_exclude_file plain_resolve d (RawStr "build/x.o") = true).
Proof.
  split; [intros X rel_path file_name; apply pattern_excludes_prefix |].
  split; [| vm_compute; tauto].
  intros resolve d file_path X patterns Hrules Hin Hpre.
  rewrite should_exclude_file_seen, Hrules.
  eapply any_pattern_excludes_In; [exact Hin |].
  by apply pattern_excludes_prefix.
Qed.

(** C9 amended, at work: [buildings/x] under the sample rule list, which
    holds [build/]. *)
Lemma directory_rule_is_text_prefix_witness :
  should_exclude_file plain_resolve (daemon sample_world)
    (RawStr "buildings/x") = true.
Proof.
  apply (proj1 (proj2 directory_rule_is_text_prefix)
           plain_resolve (daemon sample_world) (RawStr "buildings/x")
           "build"%string ["build/"; "*.log"]%string).
  - reflexivity.
  - simpl. tauto.
  - reflexivity.
Defined.

(** ** Starting the daemon *)

(** C7.  When the registry holds a live record for the daemon's canonical
    path, [start] returns [False] at once, in either mode.  The daemon
    object and the registry are untouched (no watch is scheduled, no
    record written, no counter moved) and the only effect is one console
    line: no fork, no transfer, no thread. *)
Theorem start_refuses_when_already_running :
  forall (env : StartEnv) (detach : bool) (w : World) (existing : DaemonInfo),
    ProcessManager.get_daemon_by_path (str (local_path (daemon w))) w
    = Some existing ->
    snd (start env detach w) = Ok false
    /\ daemon (fst (start env detach w)) = daemon w
    /\ registry (fst (start env detach w)) = registry w
    /\ live_pids (fst (start env detach w)) = live_pids w
    /\ trace (fst (start env detach w))
       = trace w
           ++ [EvPrint (MsgAlreadyRunning (str (local_path (daemon w)))
                          (pid existing))].
Proof.
  intros env detach w existing Hlive.
  unfold start, bind. cbn [self get]. rewrite Hlive.
  destruct w. simpl. tauto.
Qed.

(** C7 at work: a second daemon for the sample directory while process
    777 runs the first. *)
Lemma start_refuses_when_already_running_witness :
  snd (start sample_env true occupied_world) = Ok false
  /\ daemon (fst (start sample_env true occupied_world)) = daemon occupied_world
  /\ registry (fst (start sample_env true occupied_world))
     = registry occupied_world
  /\ live_pids (fst (start sample_env true occupied_world))
     = live_pids occupied_world
  /\ trace (fst (start sample_env true occupied_world))
     = trace occupied_world
         ++ [EvPrint (MsgAlreadyRunning
                        (str (local_path (daemon occupied_world)))
                        (pid (with_pid 777 sample_info)))].
Proof.
  apply (start_refuses_when_already_running sample_env true occupied_world
           (with_pid 777 sample_info)).
  vm_compute. reflexivity.
Defined.

Lemma bring_up_foreground (env : StartEnv) (info : DaemonInfo) (w : World) :
  bring_up env false info w
  = (mkWorld (set_is_running true (set_observer_alive true (daemon w)))
       (registry w) (live_pids w)
       (trace w
          ++ [EvPrint (MsgStarting (str (local_path (daemon w)))
                         (env_getpid env));
              EvSignalHandlers (signature (daemon w));
              EvThreadStart;
              EvPrint (MsgWatching (str (local_path (daemon w))));
              EvPrint (MsgTarget (remote_target (config (daemon w))));
              EvPrint MsgInitialSync]),
     Ok tt).
Proof.
  destruct w as [d reg live tr].
  cbv [bring_up bind ret self negb console_print do_event modify modify_daemon
       ProcessManager.setup_signal_handlers emit set_daemon
       daemon registry live_pids trace].
  rewrite <- !app_assoc. reflexivity.
Qed.

Lemma bring_up_detached (env : StartEnv) (info : DaemonInfo) (w : World) :
  bring_up env true info w
  = (mkWorld (set_is_running true (set_observer_alive true (daemon w)))
       (match ProcessManager.get_daemon_by_path (di_local_path info) w with
        | Some _ => registry w
        | None => <[di_signature info := info]> (registry w)
        end)
       (live_pids w)
       (trace w
          ++ [EvSignalHandlers (signature (daemon w));
              EvThreadStart;
              EvPrint (MsgWatching (str (local_path (daemon w))));
              EvPrint (MsgTarget (remote_target (config (daemon w))));
              EvPrint MsgInitialSync]),
     Ok tt).
Proof.
  destruct w as [dm reg live tr].
  cbv [bring_up bind ret self negb console_print do_event modify modify_daemon
       ProcessManager.setup_signal_handlers ProcessManager.start_daemon
       emit set_daemon set_registry daemon registry live_pids trace].
  destruct (ProcessManager.get_daemon_by_path (di_local_path info)
              (mkWorld dm reg live tr));
    rewrite <- !app_assoc; reflexivity.
Qed.

Lemma start_past_check (env : StartEnv) (detach : bool) (w : World) :
  ProcessManager.get_daemon_by_path (str (local_path (daemon w))) w = None ->
  start env detach w
  = bind
      (if detach then
         try_except
           (bind (do_event EvFork) (fun _ =>
            bind (fun w0 => (w0, env_fork env)) (fun child =>
            if (0 <? child)%Z then
              bind (ProcessManager.start_daemon
                      (with_pid child (new_record env (daemon w))))
                   (fun _ => ret (inl true))
            else
              bind (do_event EvSetsid) (fun _ =>
              ret (inr (with_pid (env_child_pid env)
                          (new_record env (daemon w))))))))
           is_OSError
           (fun e => bind (console_print (MsgForkFailed e))
                          (fun _ => ret (inl false)))
       else ret (inr (new_record env (daemon w))))
      (fun forked =>
         match forked with
         | inl returned => ret returned
         | inr daemon_info => start_watching env detach daemon_info
         end)
      (watch_scheduled w).
Proof.
  intros Hnone. unfold start, bind at 1, bind at 1. cbn [self get].
  rewrite Hnone. reflexivity.
Qed.




(** The wait loop only sleeps. *)
Lemma wait_loop_sleeps (interval : Q) (polls : nat) :
  forall w : World, exists n r,
    wait_loop interval polls w
    = (mkWorld (daemon w) (registry w) (live_pids w)
         (trace w ++ replicate n (EvSleep interval)), r).
Proof.
  induction polls as [| polls IH]; intros w;
    cbn [wait_loop]; unfold bind at 1; cbn [self];
    destruct (is_running (daemon w)) eqn:Hrun.
  - exists 0%nat, (Raise KeyboardInterrupt). destruct w. unfold raise. simpl.
    by rewrite app_nil_r.
  - exists 0%nat, (Ok tt). destruct w. unfold ret. simpl. by rewrite app_nil_r.
  - unfold bind. cbn [sleep do_event modify].
    destruct (IH (emit (EvSleep interval) w)) as (n & r & ->).
    exists (S n), r. simpl. by rewrite <- app_assoc.
  - exists 0%nat, (Ok tt). destruct w. unfold ret. simpl. by rewrite app_nil_r.
Qed.

Lemma count_pushes_sleeps (interval : Q) (n : nat) :
  count_pushes (replicate n (EvSleep interval)) = 0%nat.
Proof. induction n as [| n IH]; [done | exact IH]. Qed.

(** Waiting and stopping make no transfer. *)
Lemma run_until_stopped_no_push (env : StartEnv) (detach : bool) (w : World) :
  exists tail,
    trace (fst (run_until_stopped env detach w)) = trace w ++ tail
    /\ count_pushes tail = 0%nat.
Proof.
  unfold run_until_stopped. destruct detach.
  - unfold bind at 1, bind at 1. cbn [do_event modify]. unfold try_except.
    destruct (wait_loop_sleeps 1 (env_polls env) (emit EvCloseStdStreams w))
      as (n & r & ->).
    destruct w as [dm reg live tr].
    destruct r as [[] | []];
      cbv [is_KeyboardInterrupt bind ret stop self console_print do_event
           modify modify_daemon ProcessManager.cleanup_daemon_files emit
           set_daemon set_registry daemon registry live_pids trace fst];
      try destruct (observer_alive _);
      (eexists; split; [rewrite <- ?app_assoc; reflexivity |]);
      rewrite ?count_pushes_app, ?count_pushes_sleeps; reflexivity.
  - unfold bind at 1. unfold try_except.
    destruct (wait_loop_sleeps (1 # 10) (env_polls env) w) as (n & r & ->).
    destruct w as [dm reg live tr].
    destruct r as [[] | []];
      cbv [is_KeyboardInterrupt bind ret stop self console_print do_event
           modify modify_daemon ProcessManager.cleanup_daemon_files emit
           set_daemon set_registry daemon registry live_pids trace fst];
      try destruct (observer_alive _);
      (eexists; split; [rewrite <- ?app_assoc; reflexivity |]);
      rewrite ?count_pushes_app, ?count_pushes_sleeps; reflexivity.
Qed.

Lemma bring_up_ok (env : StartEnv) (detach : bool) (info : DaemonInfo)
    (w : World) :
  let w1 := fst (bring_up env detach info w) in
  bring_up env detach info w = (w1, Ok tt)
  /\ daemon w1 = set_is_running true (set_observer_alive true (daemon w))
  /\ exists before,
      trace w1 = trace w ++ before ++ thread_started (daemon w)
      /\ count_pushes before = 0%nat.
Proof.
  destruct detach.
  - rewrite bring_up_detached. simpl. repeat split.
    by exists [EvSignalHandlers (signature (daemon w))].
  - rewrite bring_up_foreground. simpl. repeat split.
    by exists [EvPrint (MsgStarting (str (local_path (daemon w)))
                          (env_getpid env));
               EvSignalHandlers (signature (daemon w))].
Qed.

(** After bringing the daemon up, [start] goes straight into one
    transfer; nothing that follows makes another. *)
Lemma start_watching_trace (env : StartEnv) (detach : bool)
    (info : DaemonInfo) (w : World) :
  exists lines after,
    trace (fst (start_watching env detach info w))
    = trace (fst (bring_up env detach info w))
        ++ (EvPrint <$> lines)
        ++ EvRsyncPush (cfg_local_path (config (daemon w)))
             (remote_target (config (daemon w)))
        :: after
    /\ count_pushes after = 0%nat.
Proof.
  destruct (bring_up_ok env detach info w) as (Hup & Hd & _).
  unfold start_watching, bind at 1. rewrite Hup.
  set (w1 := fst (bring_up env detach info w)) in *.
  unfold bind at 1.
  destruct (perform_sync_outcome (env_run env) (env_done env) w1)
    as [lines Hout].
  rewrite Hout. exists lines.
  assert (config (daemon w1) = config (daemon w)) as -> by by rewrite Hd.
  destruct (sync_answer (env_run env)) as [b | e].
  - match goal with
    | |- context [run_until_stopped env detach ?w2] =>
        destruct (run_until_stopped_no_push env detach w2) as (tail & -> & Hn)
    end.
    simpl. exists ((EvPrint <$> sync_epilogue (env_run env)) ++ tail).
    split; [by rewrite <- !app_assoc |].
    by rewrite count_pushes_app, count_pushes_prints.
  - simpl. exists (EvPrint <$> sync_epilogue (env_run env)).
    split; [done | apply count_pushes_prints].
Qed.

(** C10.  A new daemon has its last sync at 0 and nothing pending, so
    any clock reading above 300 fires the forced trigger.  Once past the
    check for a running daemon, in the foreground or as the forked child,
    [start] brings the daemon up (observer alive, [is_running] set,
    scheduler thread started, no transfer so far, last sync and pending
    set as they were) and then goes straight into [perform_sync]: the next
    effect after the announcement is the transfer, and it is the only one
    [start] makes.  At the moment its scheduler thread starts, a daemon
    fresh from the constructor therefore meets the forced trigger for
    every clock reading above 300. *)
Theorem fresh_daemon_syncs_at_once :
  (forall resolve cfg,
      last_sync_time (init resolve cfg) = 0%Q
      /\ pending_changes (init resolve cfg) = ∅)
  /\ (forall resolve cfg (now : Q),
         (300 < now)%Q -> should_sync_now (init resolve cfg) now = true)
  /\ (forall (env : StartEnv) (w : World),
         ProcessManager.get_daemon_by_path (str (local_path (daemon w))) w
         = None ->
         start env false w
         = start_watching env false (new_record env (daemon w))
             (watch_scheduled w))
  /\ (forall (env : StartEnv) (w : World) (child : Z),
         ProcessManager.get_daemon_by_path (str (local_path (daemon w))) w
         = None ->
         env_fork env = Ok child ->
         (child <= 0)%Z ->
         start env true w
         = start_watching env true
             (with_pid (env_child_pid env) (new_record env (daemon w)))
             (emit EvSetsid (emit EvFork (watch_scheduled w))))
  /\ (forall (env : StartEnv) (detach : bool) (info : DaemonInfo) (w : World),
         let w1 := fst (bring_up env detach info w) in
         observer_alive (daemon w1) = true
         /\ is_running (daemon w1) = true
         /\ last_sync_time (daemon w1) = last_sync_time (daemon w)
         /\ pending_changes (daemon w1) = pending_changes (daemon w)
         /\ (exists before,
                trace w1 = trace w ++ before ++ thread_started (daemon w)
                /\ count_pushes before = 0%nat)
         /\ (exists lines after,
                trace (fst (start_watching env detach info w))
                = trace w1 ++ (EvPrint <$> lines)
                    ++ EvRsyncPush (cfg_local_path (config (daemon w)))
                         (remote_target (config (daemon w)))
                    :: after
                /\ count_pushes after = 0%nat))
  /\ (forall resolve cfg (env : StartEnv) (detach : bool) (info : DaemonInfo)
             reg live tr (now : Q),
         (300 < now)%Q ->
         should_sync_now
           (daemon (fst (bring_up env detach info
                           (mkWorld (init resolve cfg) reg live tr)))) now
         = true).
Proof.
  assert (forall resolve cfg (now : Q),
             (300 < now)%Q -> should_sync_now (init resolve cfg) now = true)
    as Hfresh.
  { intros resolve cfg now Hnow. apply should_sync_now_iff. left. simpl. lra. }
  split; [done |].
  split; [exact Hfresh |].
  split.
  { intros env w Hnone. unfold start, bind at 1, bind at 1. cbn [self get].
    by rewrite Hnone. }
  split.
  { intros env w child Hnone Hfork Hchild.
    unfold start, bind at 1, bind at 1. cbn [self get]. rewrite Hnone.
    unfold bind at 1, bind at 1. cbn [modify_daemon modify].
    unfold try_except, bind at 1, bind at 1. cbn [do_event modify].
    unfold bind at 1. rewrite Hfork.
    assert ((0 <? child)%Z = false) as -> by by apply Z.ltb_ge.
    reflexivity. }
  split.
  { intros env detach info w w1.
    destruct (bring_up_ok env detach info w) as (_ & Hd & Htrace).
    fold w1 in Hd, Htrace. rewrite Hd. simpl.
    repeat split; [exact Htrace |].
    apply start_watching_trace. }
  intros resolve cfg env detach info reg live tr now Hnow.
  destruct (bring_up_ok env detach info (mkWorld (init resolve cfg) reg live tr))
    as (_ & -> & _).
  apply should_sync_now_iff. left. simpl. lra.
Qed.

(** C10 at work: the sample daemon at clock reading 1000. *)
Lemma fresh_daemon_syncs_at_once_witness :
  should_sync_now (init plain_resolve sample_config) 1000 = true.
Proof.
  apply (proj1 (proj2 fresh_daemon_syncs_at_once) plain_resolve sample_config
           1000%Q).
  reflexivity.
Defined.

(** * Further properties of the code *)

(** ** The event handler *)




Lemma canonical_plain_resolve : canonical plain_resolve.
Proof. intros q Hq. by split. Qed.



(** ** Stopping *)

Lemma stop_outcome (w : World) :
  stop w
  = (mkWorld (stopped (daemon w))
       (delete (signature (daemon w)) (registry w)) (live_pids w)
       (trace w ++ [EvPrint MsgStopped]),
     Ok tt).
Proof.
  destruct w as [[cfg lp sg ws alive run pend last cnt delay maxi batch]
                   reg live tr].
  destruct alive; reflexivity.
Qed.

(** X2.  [stop] marks the daemon as not running, ends the observer and
    removes the record under the daemon's signature, leaving every other
    record alone.  It makes no last transfer and leaves pending changes
    and counters where they are; a second [stop] changes neither the
    daemon nor the registry. *)
Theorem stop_cleans_up_once :
  forall w : World,
    let w' := fst (stop w) in
    snd (stop w) = Ok tt
    /\ is_running (daemon w') = false
    /\ observer_alive (daemon w') = false
    /\ registry w' !! signature (daemon w) = None
    /\ (forall key, key <> signature (daemon w) ->
                    registry w' !! key = registry w !! key)
    /\ pending_changes (daemon w') = pending_changes (daemon w)
    /\ sync_count (daemon w') = sync_count (daemon w)
    /\ last_sync_time (daemon w') = last_sync_time (daemon w)
    /\ count_pushes (trace w') = count_pushes (trace w)
    /\ daemon (fst (stop w')) = daemon w'
    /\ registry (fst (stop w')) = registry w'.
Proof.
  intros w w'. subst w'. rewrite !stop_outcome. simpl.
  split; [done |]. split; [done |]. split; [done |].
  split; [apply lookup_delete_eq |].
  split; [intros key Hkey; by apply lookup_delete_ne |].
  split; [done |]. split; [done |]. split; [done |].
  split.
  { rewrite count_pushes_app. unfold count_pushes at 2. simpl. lia. }
  split; [reflexivity |].
  apply map_eq. intros key. simpl.
  destruct (decide (key = signature (daemon w))) as [-> | Hne].
  - by rewrite !lookup_delete_eq.
  - by rewrite (lookup_delete_ne _ _ _ (not_eq_sym Hne)).
Qed.

(** ** The ways out of [start] *)


(** X3.  In detached mode the calling process, once [os.fork] has
    returned the child's process id, writes the record for the daemon
    with the child's id (not its own) and returns [True].  It starts no
    observer, no thread and no transfer: all that is left in the parent
    is the scheduled watch. *)
Theorem start_parent_registers_child :
  forall (env : StartEnv) (w : World) (child : Z),
    ProcessManager.get_daemon_by_path (str (local_path (daemon w))) w = None ->
    env_fork env = Ok child ->
    (0 < child)%Z ->
    let w' := fst (start env true w) in
    snd (start env true w) = Ok true
    /\ registry w'
       = <[signature (daemon w) := with_pid child (new_record env (daemon w))]>
           (registry w)
    /\ pid (with_pid child (new_record env (daemon w))) = child
    /\ daemon w' = daemon (watch_scheduled w)
    /\ is_running (daemon w') = is_running (daemon w)
    /\ observer_alive (daemon w') = observer_alive (daemon w)
    /\ trace w' = trace w ++ [EvFork].
Proof.
  intros env w child Hnone Hfork Hchild.
  assert (ProcessManager.get_daemon_by_path
            (di_local_path (with_pid child (new_record env (daemon w))))
            (emit EvFork (watch_scheduled w)) = None) as Hnone'.
  { unfold ProcessManager.get_daemon_by_path in *. by destruct w. }
  assert (start env true w
          = (set_registry
               (<[signature (daemon w)
                  := with_pid child (new_record env (daemon w))]> (registry w))
               (emit EvFork (watch_scheduled w)),
             Ok true)) as Heq.
  { rewrite (start_past_check env true w Hnone).
    unfold bind at 1, try_except, bind at 1. cbn [do_event modify].
    unfold bind at 1. rewrite Hfork.
    assert ((0 <? child)%Z = true) as -> by by apply Z.ltb_lt.
    unfold bind at 1, ProcessManager.start_daemon. rewrite Hnone'.
    reflexivity. }
  cbv zeta. rewrite Heq. by destruct w.
Qed.

(** X3 at work: the parent on the sample host records process 4243. *)
Lemma start_parent_registers_child_witness :
  snd (start parent_env true sample_world) = Ok true
  /\ registry (fst (start parent_env true sample_world))
     = <[signature (daemon sample_world)
         := with_pid 4243 (new_record parent_env (daemon sample_world))]>
         (registry sample_world)
  /\ pid (with_pid 4243 (new_record parent_env (daemon sample_world))) = 4243%Z
  /\ daemon (fst (start parent_env true sample_world))
     = daemon (watch_scheduled sample_world)
  /\ is_running (daemon (fst (start parent_env true sample_world)))
     = is_running (daemon sample_world)
  /\ observer_alive (daemon (fst (start parent_env true sample_world)))
     = observer_alive (daemon sample_world)
  /\ trace (fst (start parent_env true sample_world))
     = trace sample_world ++ [EvFork].
Proof.
  apply (start_parent_registers_child parent_env sample_world 4243%Z);
    reflexivity.
Defined.

(** X4.  When [os.fork] raises an [OSError], [start] reports it and
    returns [False]; the registry is as before and the daemon is not
    running, but the watch scheduled before the fork stays on the
    observer.  An exception of another class is not caught and leaves
    [start]. *)
Theorem start_fork_failure :
  (forall (env : StartEnv) (w : World) (e : exn),
      ProcessManager.get_daemon_by_path (str (local_path (daemon w))) w = None ->
      env_fork env = Raise e ->
      is_OSError e = true ->
      start env true w
      = (printed [MsgForkFailed e] (emit EvFork (watch_scheduled w)), Ok false))
  /\ (forall (env : StartEnv) (w : World) (e : exn),
         ProcessManager.get_daemon_by_path (str (local_path (daemon w))) w
         = None ->
         env_fork env = Raise e ->
         is_OSError e = false ->
         start env true w = (emit EvFork (watch_scheduled w), Raise e)).
Proof.
  split; intros env w e Hnone Hfork Hclass;
    rewrite (start_past_check env true w Hnone);
    unfold bind at 1, try_except, bind at 1; cbn [do_event modify];
    unfold bind at 1; rewrite Hfork, Hclass; [| reflexivity].
  unfold bind at 1. cbn [console_print do_event modify].
  unfold printed, emit. simpl. by rewrite <- app_assoc.
Qed.

(** X4 at work on the sample host without [fork]. *)
Lemma start_fork_failure_witness :
  start forkless_env true sample_world
  = (printed [MsgForkFailed OSError] (emit EvFork (watch_scheduled sample_world)),
     Ok false).
Proof.
  apply (proj1 start_fork_failure forkless_env sample_world OSError);
    reflexivity.
Defined.



Lemma start_watching_steps (env : StartEnv) (detach : bool)
    (info : DaemonInfo) (w : World) :
  let w1 := fst (bring_up env detach info w) in
  let w2 := fst (perform_sync (env_run env) (env_done env) w1) in
  start_watching env detach info w
  = match sync_answer (env_run env) with
    | Ok _ => run_until_stopped env detach w2
    | Raise e => (w2, Raise e)
    end.
Proof.
  intros w1 w2.
  destruct (bring_up_ok env detach info w) as (Hup & _ & _).
  unfold start_watching, bind at 1. rewrite Hup. fold w1.
  unfold bind at 1. subst w2.
  destruct (perform_sync_outcome (env_run env) (env_done env) w1)
    as [lines ->].
  by destruct (sync_answer (env_run env)).
Qed.

Lemma bring_up_no_sleep (env : StartEnv) (detach : bool) (info : DaemonInfo)
    (w : World) :
  sleeps_of (trace (fst (bring_up env detach info w))) = sleeps_of (trace w).
Proof.
  destruct detach; [rewrite bring_up_detached | rewrite bring_up_foreground];
    simpl; rewrite sleeps_of_app; simpl; by rewrite app_nil_r.
Qed.




(** X6.  When the initial transfer raises outside the [Exception]
    hierarchy (the operator interrupts it, say), the exception leaves
    [start] and [stop] is never reached: the daemon object is still marked
    as running with its observer alive, nothing was slept, and the
    registry is as the bring-up left it, so a record written for a
    detached daemon stays behind. *)
Theorem start_interrupted_skips_stop :
  forall (env : StartEnv) (detach : bool) (info : DaemonInfo) (w : World)
         (e : exn),
    env_run env = Raise e ->
    is_Exception e = false ->
    let w' := fst (start_watching env detach info w) in
    snd (start_watching env detach info w) = Raise e
    /\ is_running (daemon w') = true
    /\ observer_alive (daemon w') = true
    /\ pending_changes (daemon w') = ∅
    /\ registry w' = registry (fst (bring_up env detach info w))
    /\ sleeps_of (trace w') = sleeps_of (trace w).
Proof.
  intros env detach info w e Hrun He. cbv zeta.
  rewrite start_watching_steps.
  destruct (bring_up_ok env detach info w) as (_ & Hd1 & _).
  pose proof (bring_up_no_sleep env detach info w) as Hsl1.
  destruct (perform_sync_frame (env_run env) (env_done env)
              (fst (bring_up env detach info w))) as [Hrun2 Hsl2].
  destruct (perform_sync_outcome (env_run env) (env_done env)
              (fst (bring_up env detach info w))) as [lines Hout].
  assert (sync_answer (env_run env) = Raise e) as ->.
  { rewrite Hrun. simpl. by rewrite He. }
  simpl. split; [done |].
  split; [by rewrite Hrun2, Hd1 |].
  rewrite Hsl2, Hsl1, Hout, Hrun. simpl. rewrite Hd1. done.
Qed.

(** X6 at work: the operator interrupts the initial transfer of the
    detached sample daemon, whose record stays in the registry. *)
Lemma start_interrupted_skips_stop_witness :
  let w' :=
    fst (start_watching interrupted_env true (with_pid 4243 sample_info)
           scheduled_world) in
  (snd (start_watching interrupted_env true (with_pid 4243 sample_info)
          scheduled_world) = Raise KeyboardInterrupt
   /\ is_running (daemon w') = true
   /\ observer_alive (daemon w') = true
   /\ pending_changes (daemon w') = ∅
   /\ registry w'
      = registry (fst (bring_up interrupted_env true
                         (with_pid 4243 sample_info) scheduled_world))
   /\ sleeps_of (trace w') = sleeps_of (trace scheduled_world))
  /\ registry w' !! ProcessManager.generate_signature "/home/u/proj"
     = Some (with_pid 4243 sample_info).
Proof.
  split.
  - apply (start_interrupted_skips_stop interrupted_env true
             (with_pid 4243 sample_info) scheduled_world KeyboardInterrupt);
      reflexivity.
  - vm_compute. reflexivity.
Defined.

(** ** Paths relative to the watched root *)

Lemma strip_parts_app (base ws : list string) :
  strip_parts base (base ++ ws) = Some ws.
Proof.
  induction base as [| b base IH]; simpl; [done |].
  by rewrite String.eqb_refl.
Qed.

Lemma strip_parts_none (base ws : list string) :
  strip_parts base ws = None -> (common_len base ws < length base)%nat.
Proof.
  revert ws. induction base as [| b base IH]; intros ws Hnone; [done |].
  destruct ws as [| w ws]; simpl in *; [lia |].
  destruct (String.eqb b w); [| lia].
  specialize (IH ws Hnone). lia.
Qed.

Lemma replace_char_same (c : ascii) (s : string) :
  PyStr.replace_char c c s = s.
Proof.
  induction s as [| d s IH]; simpl; [done |].
  rewrite IH. destruct (Ascii.eqb_spec d c); by subst.
Qed.

Lemma prefix_refl (w : string) : String.prefix w w = true.
Proof.
  induction w as [| c w IH]; simpl; [done |]. by destruct (ascii_dec c c).
Qed.

Lemma prefix_app (w t : string) : String.prefix w (w ++ t)%string = true.
Proof.
  induction w as [| c w IH]; simpl; [by destruct t |].
  by destruct (ascii_dec c c).
Qed.

Lemma join_starts_with_first (sep w : string) (ws : list string) :
  String.prefix w (PyStr.join sep (w :: ws)) = true.
Proof.
  destruct ws as [| w' ws]; simpl; [apply prefix_refl | apply prefix_app].
Qed.

(** X7.  The relative form the daemon shows and matches: a path built by
    joining a relative path onto the root comes back as that relative
    path; the root itself is shown as [.]; and an absolute path that does
    not lie under an absolute root is shown climbing out of it, starting
    with [..]. *)
Theorem relative_path_forms :
  (forall (d : Daemon) (q : PurePath),
      anchored q = false ->
      _relative_path d (joinpath (local_path d) q)
      = as_posix (mkPath false (parts q)))
  /\ (forall d : Daemon, _relative_path d (local_path d) = "."%string)
  /\ (forall (d : Daemon) (p : PurePath),
         anchored p = true ->
         anchored (local_path d) = true ->
         relative_to p (local_path d) = None ->
         String.prefix ".." (_relative_path d p) = true).
Proof.
  split.
  { intros d q Hq. unfold _relative_path, relative_to, joinpath.
    rewrite Hq. simpl. rewrite Bool.eqb_reflx, strip_parts_app. reflexivity. }
  split.
  { intros d. unfold _relative_path, relative_to.
    rewrite Bool.eqb_reflx.
    rewrite <- (app_nil_r (parts (local_path d))) at 2.
    rewrite strip_parts_app. reflexivity. }
  intros d p Hp Hroot Hnone. unfold _relative_path. rewrite Hnone.
  rewrite replace_char_same. unfold relpath.
  unfold relative_to in Hnone. rewrite Hp, Hroot in Hnone. simpl in Hnone.
  destruct (strip_parts (parts (local_path d)) (parts p)) eqn:Hstrip;
    [discriminate |].
  apply strip_parts_none in Hstrip.
  destruct (length (parts (local_path d))
            - common_len (parts (local_path d)) (parts p))%nat
    as [| k] eqn:Hk; [lia |].
  cbn [replicate app]. apply join_starts_with_first.
Qed.

(** X7 at work: [/etc/passwd] seen from the sample project. *)
Lemma relative_path_forms_witness :
  String.prefix ".." (_relative_path (daemon sample_world) outside_path) = true.
Proof.
  apply (proj2 (proj2 relative_path_forms) (daemon sample_world) outside_path);
    reflexivity.
Defined.

(** ** The report of changed files *)

Lemma display_order_perm (changes : gset PurePath) :
  display_order changes ≡ₚ elements changes.
Proof. apply merge_sort_Permutation. Qed.

Lemma display_order_length (changes : gset PurePath) :
  length (display_order changes) = size changes.
Proof. by rewrite display_order_perm. Qed.

(** X8.  Before a transfer the daemon lists the changed files in the
    order of their text and never at length: one line when nothing is
    pending; a heading and then every pending file, sorted, for up to
    five files; and beyond that a heading, the first three files of the
    sorted list and a count of the rest.  The names are the files'
    relative paths, the sorted list holds exactly the pending files, and
    the report never has more than six lines. *)
Theorem report_is_sorted_and_short :
  forall (changes : gset PurePath) (w : World),
    let d := daemon w in
    let n := size changes in
    let shown (files : list PurePath) : list line :=
      (fun change => MsgChange (_relative_path d change)) <$> files in
    (exists lines,
        report_changes changes w = (printed lines w, Ok tt)
        /\ lines
           = (if bool_decide (changes = ∅) then [MsgScheduled]
              else if (n <=? 5)%nat
                   then MsgSyncing n :: shown (display_order changes)
                   else MsgSyncing n :: shown (take 3 (display_order changes))
                        ++ [MsgMore (n - 3)])
        /\ length lines = report_length n
        /\ (length lines <= 6)%nat)
    /\ Sorted posix_le (display_order changes)
    /\ display_order changes ≡ₚ elements changes
    /\ (forall p, p ∈ display_order changes <-> p ∈ changes).
Proof.
  intros changes w d n shown. split.
  { subst d n shown. unfold report_changes, bind. cbn [self].
    unfold report_length.
    destruct (bool_decide (changes = ∅)) eqn:Hempty; simpl.
    - apply bool_decide_eq_true in Hempty. subst changes.
      exists [MsgScheduled]. cbn [console_print do_event modify].
      rewrite <- (printed_emit _ []), printed_nil. rewrite size_empty. simpl.
      split; [done |]. split; [done |]. split; [done | lia].
    - apply bool_decide_eq_false in Hempty.
      assert (size changes <> 0%nat) as Hsize
        by (by intros ?%size_empty_iff%leibniz_equiv).
      destruct (Nat.eqb_spec (size changes) 0) as [? | _]; [done |].
      cbn [console_print do_event modify].
      destruct (Nat.leb_spec (size changes) 5) as [Hle | Hgt].
      + rewrite for_each_print. eexists. rewrite printed_emit.
        split; [reflexivity |].
        rewrite take_ge by (rewrite display_order_length; lia).
        split; [reflexivity |]. simpl.
        rewrite length_fmap, display_order_length.
        split; lia.
      + unfold bind. rewrite for_each_print.
        cbn [console_print do_event modify].
        exists (MsgSyncing (size changes)
                  :: ((fun change =>
                         MsgChange (_relative_path (daemon w) change))
                        <$> take 3 (display_order changes))
                  ++ [MsgMore (size changes - 3)]).
        rewrite <- printed_emit, <- printed_printed, <- (printed_emit _ []),
          printed_nil.
        split; [reflexivity |]. split; [reflexivity |]. simpl.
        rewrite length_app, length_fmap, length_take, display_order_length.
        cbn [length]. split; lia. }
  split.
  { apply Sorted_merge_sort. intros p q. unfold Is_true.
    destruct (String.leb_total (as_posix p) (as_posix q)) as [-> | ->]; auto. }
  split; [apply display_order_perm |].
  intros p. rewrite display_order_perm. apply elem_of_elements.
Qed.

(** ** Retries and pacing *)

Lemma should_sync_now_false (d : Daemon) (now : Q) :
  should_sync_now d now = false <->
  (now - last_sync_time d <= max_sync_interval d)%Q
  /\ (pending_changes d = ∅ \/ (now - last_sync_time d <= sync_delay d)%Q).
Proof.
  rewrite <- not_true_iff_false, should_sync_now_iff. split.
  - intros Hno. split.
    + apply Qnot_lt_le. tauto.
    + destruct (decide (pending_changes d = ∅)) as [? | Hne]; [by left |].
      right. apply Qnot_lt_le. tauto.
  - intros [Hmax Hdeb] [Hforce | [Hne Hdelay]].
    + revert Hforce. by apply Qle_not_lt.
    + destruct Hdeb as [? | Hdeb]; [done |].
      revert Hdelay. by apply Qle_not_lt.
Qed.

(** X9.  What follows a sync.  After a transfer that failed or raised,
    the changes it was made for are gone from the pending set and the
    last-sync time has not moved: nothing is retried until a new change
    arrives or the forced interval has run out, and once the forced
    interval has run out a sync is due at every later tick.  After a
    successful transfer no sync is due for [sync_delay] seconds, whatever
    changes arrive meanwhile (provided the delay does not exceed the
    forced interval). *)
Theorem retry_and_pacing :
  (forall (e : exn) (done now : Q) (w : World),
      (now - last_sync_time (daemon w) <= max_sync_interval (daemon w))%Q ->
      should_sync_now (daemon (fst (perform_sync (Raise e) done w))) now = false)
  /\ (forall (e : exn) (done now later : Q) (w : World)
             (arrived : gset PurePath),
         (max_sync_interval (daemon w) < now - last_sync_time (daemon w))%Q ->
         (now <= later)%Q ->
         should_sync_now
           (set_pending_changes arrived
              (daemon (fst (perform_sync (Raise e) done w)))) later = true)
  /\ (forall (done now : Q) (w : World) (arrived : gset PurePath),
         (sync_delay (daemon w) <= max_sync_interval (daemon w))%Q ->
         (now - done <= sync_delay (daemon w))%Q ->
         should_sync_now
           (set_pending_changes arrived
              (daemon (fst (perform_sync (Ok tt) done w)))) now = false).
Proof.
  split.
  { intros e done now w Hmax.
    destruct (perform_sync_outcome (Raise e) done w) as [lines ->]. simpl.
    apply should_sync_now_false. simpl. split; [exact Hmax | by left]. }
  split.
  { intros e done now later w arrived Hforce Hlater.
    destruct (perform_sync_outcome (Raise e) done w) as [lines ->]. simpl.
    apply should_sync_now_iff. left. simpl. lra. }
  intros done now w arrived Hcfg Hsoon.
  destruct (perform_sync_outcome (Ok tt) done w) as [lines ->]. simpl.
  apply should_sync_now_false. simpl. split; [lra | right; exact Hsoon].
Qed.

(** X9 at work: the sample daemon, last synced at 900 with one change
    pending, fails a transfer at 1000; at 1001 nothing is due. *)
Lemma retry_and_pacing_witness :
  should_sync_now
    (daemon (fst (perform_sync (Raise OSError) 1000 busy_world))) 1001 = false.
Proof.
  apply (proj1 retry_and_pacing OSError 1000%Q 1001%Q busy_world).
  vm_compute. discriminate.
Defined.

(** ** Counters along the scheduler loop *)

Lemma perform_sync_counts (run : result unit) (now : Q) (w : World) :
  let w' := fst (perform_sync run now w) in
  count_pushes (trace w') = S (count_pushes (trace w))
  /\ (sync_count (daemon w) <= sync_count (daemon w') <= sync_count (daemon w) + 1)%Z
  /\ pending_changes (daemon w') = ∅.
Proof.
  destruct (perform_sync_outcome run now w) as [lines ->]. simpl.
  rewrite !count_pushes_app, count_pushes_prints.
  change (count_pushes (?e :: ?l)) with (count_pushes ([e] ++ l)).
  rewrite count_pushes_app, count_pushes_prints.
  split; [unfold count_pushes at 2; simpl; lia |].
  destruct run; simpl; split; (lia || done).
Qed.

Lemma sync_loop_counts (ticks : list Tick) :
  forall w : World,
    is_running (daemon w) = true ->
    forallb ordinary_tick ticks = true ->
    exists w',
      sync_loop ticks w = (w', Ok LoopStillRunning)
      /\ (count_pushes (trace w) <= count_pushes (trace w')
          <= count_pushes (trace w) + length ticks)%nat
      /\ (sync_count (daemon w) <= sync_count (daemon w'))%Z
      /\ (sync_count (daemon w') - sync_count (daemon w)
          <= Z.of_nat (count_pushes (trace w') - count_pushes (trace w)))%Z
      /\ pending_changes (daemon w') ⊆ pending_changes (daemon w).
Proof.
  unfold sync_loop.
  induction ticks as [| t rest IH]; intros w Hrun Hticks.
  - exists w. cbn [sync_loop_with]. unfold bind. cbn [self]. rewrite Hrun.
    simpl. repeat split; (lia || done).
  - simpl in Hticks. apply andb_true_iff in Hticks as [Ht Hrest].
    unfold ordinary_tick in Ht. apply andb_true_iff in Ht as [Hstop Hesc].
    apply negb_true_iff in Hstop, Hesc.
    cbn [sync_loop_with]. unfold bind at 1. cbn [self]. rewrite Hrun.
    unfold bind at 1. rewrite (sync_loop_body_normal _ _ _ _ Hesc).
    unfold bind at 1. rewrite Hstop. cbn [ret].
    set (w1 := emit _ _).
    destruct (perform_sync_frame (tick_run t) (tick_done t) w) as [Hkeep _].
    destruct (perform_sync_counts (tick_run t) (tick_done t) w)
      as (Hpush & Hcount & Hpend).
    assert (is_running (daemon w1) = true
            /\ (count_pushes (trace w) <= count_pushes (trace w1)
                <= S (count_pushes (trace w)))%nat
            /\ (sync_count (daemon w) <= sync_count (daemon w1))%Z
            /\ (sync_count (daemon w1) - sync_count (daemon w)
                <= Z.of_nat (count_pushes (trace w1) - count_pushes (trace w)))%Z
            /\ pending_changes (daemon w1) ⊆ pending_changes (daemon w))
      as (Hrun1 & Hp1 & Hc1 & Hd1 & Hs1).
    { subst w1. simpl. rewrite count_pushes_app.
      change (count_pushes [EvSleep 1]) with 0%nat.
      destruct (should_sync_now (daemon w) (tick_now t)).
      - rewrite Hkeep, Hpush, Hpend.
        split; [exact Hrun |]. split; [lia |]. split; [lia |].
        split; [lia |]. apply empty_subseteq.
      - split; [exact Hrun |]. split; [lia |]. split; [lia |].
        split; [lia | done]. }
    destruct (IH w1 Hrun1 Hrest) as (w' & Hloop & Hp & Hc & Hd & Hs).
    exists w'. split; [exact Hloop |]. simpl.
    split; [lia |]. split; [lia |]. split; [lia |].
    by transitivity (pending_changes (daemon w1)).
Qed.

(** X10.  Along the scheduler loop, through any ticks during which the
    daemon is not stopped and transfers go wrong only with ordinary
    exceptions: each tick makes at most one transfer, the count of
    successful syncs never goes down and never grows by more than the
    transfers made, and the loop itself never adds to the pending set. *)
Theorem scheduler_counts :
  forall (ticks : list Tick) (w : World),
    is_running (daemon w) = true ->
    forallb ordinary_tick ticks = true ->
    let w' := fst (sync_loop ticks w) in
    (count_pushes (trace w) <= count_pushes (trace w')
     <= count_pushes (trace w) + length ticks)%nat
    /\ (sync_count (daemon w) <= sync_count (daemon w'))%Z
    /\ (sync_count (daemon w') - sync_count (daemon w)
        <= Z.of_nat (count_pushes (trace w') - count_pushes (trace w)))%Z
    /\ pending_changes (daemon w') ⊆ pending_changes (daemon w).
Proof.
  intros ticks w Hrun Hticks.
  destruct (sync_loop_counts ticks w Hrun Hticks) as (w' & -> & H).
  exact H.
Qed.

(** X10 at work: twenty failing ticks of the sample daemon. *)
Lemma scheduler_counts_witness :
  let w' := fst (sync_loop failing_ticks running_world) in
  (count_pushes (trace running_world) <= count_pushes (trace w')
   <= count_pushes (trace running_world) + length failing_ticks)%nat
  /\ (sync_count (daemon running_world) <= sync_count (daemon w'))%Z
  /\ (sync_count (daemon w') - sync_count (daemon running_world)
      <= Z.of_nat (count_pushes (trace w')
                   - count_pushes (trace running_world)))%Z
  /\ pending_changes (daemon w') ⊆ pending_changes (daemon running_world).
Proof.
  apply (scheduler_counts failing_ticks running_world); reflexivity.
Defined.

(** ** The configuration *)

Lemma mentions_In (patterns : list string) (pattern : string) :
  Config.mentions patterns pattern = true <-> In pattern patterns.
Proof.
  unfold Config.mentions. rewrite existsb_exists. split.
  - intros (x & Hin & Heq). apply String.eqb_eq in Heq. by subst.
  - intros Hin. exists pattern. split; [done | apply String.eqb_refl].
Qed.

Lemma add_missing_spec (gitignore_patterns : list string) :
  forall patterns : list string,
    exists added,
      Config.add_missing patterns gitignore_patterns = patterns ++ added
      /\ NoDup added
      /\ (forall p, In p added <-> In p gitignore_patterns /\ ~ In p patterns).
Proof.
  induction gitignore_patterns as [| g rest IH]; intros patterns.
  - exists []. simpl. rewrite app_nil_r. split; [done |].
    split; [constructor | tauto].
  - simpl. destruct (Config.mentions patterns g) eqn:Hg.
    + apply mentions_In in Hg.
      destruct (IH patterns) as (added & Heq & Hnd & Hin).
      exists added. split; [exact Heq |]. split; [exact Hnd |].
      intros p. rewrite Hin. split; [tauto |].
      intros [[-> | Hrest] Hnot]; [contradiction | tauto].
    + assert (~ In g patterns) as Hfresh.
      { intros Hin. apply mentions_In in Hin. congruence. }
      destruct (IH (patterns ++ [g])) as (added & Heq & Hnd & Hin).
      exists (g :: added). split; [by rewrite Heq, <- app_assoc |].
      split.
      { apply NoDup_cons. split; [| exact Hnd].
        rewrite list_elem_of_In, Hin, in_app_iff. simpl. tauto. }
      intros p. simpl. rewrite Hin, in_app_iff. simpl.
      destruct (String.eqb_spec g p) as [-> | Hne]; [tauto |].
      split; [intros [? | [? Hno]]; [done | tauto] | tauto].
Qed.

(** X11.  Building a configuration never drops or reorders an exclusion
    pattern it was given (or, when given none, the defaults): what
    [.gitignore] contributes is appended, each new pattern exactly once
    however often the file repeats it, and only when [.gitignore] is to be
    respected.  A list without repetitions stays without. *)
Theorem post_init_merges_gitignore :
  (forall (abspath : string -> string) (gitignore_patterns : list string)
          (s : Config.Settings),
      let given :=
        default Config.default_exclude_patterns (Config.exclude_patterns s) in
      exists added,
        Config.exclude_patterns (Config.post_init abspath gitignore_patterns s)
        = Some (given ++ added)
        /\ NoDup added
        /\ (forall p,
               In p added <->
               Config.respect_gitignore s = true
               /\ In p gitignore_patterns /\ ~ In p given))
  /\ (forall (abspath : string -> string) (gitignore_patterns : list string)
             (s : Config.Settings),
         NoDup (default Config.default_exclude_patterns
                  (Config.exclude_patterns s)) ->
         exists patterns,
           Config.exclude_patterns
             (Config.post_init abspath gitignore_patterns s)
           = Some patterns
           /\ NoDup patterns).
Proof.
  assert (forall (abspath : string -> string) (gitignore_patterns : list string)
                 (s : Config.Settings),
             let given :=
               default Config.default_exclude_patterns
                 (Config.exclude_patterns s) in
             exists added,
               Config.exclude_patterns
                 (Config.post_init abspath gitignore_patterns s)
               = Some (given ++ added)
               /\ NoDup added
               /\ (forall p,
                      In p added <->
                      Config.respect_gitignore s = true
                      /\ In p gitignore_patterns /\ ~ In p given))
    as Hmerge.
  { intros abspath gitignore_patterns s given.
    unfold Config.post_init. simpl. fold given.
    destruct (Config.respect_gitignore s).
    - destruct (add_missing_spec gitignore_patterns given)
        as (added & Heq & Hnd & Hin).
      exists added. split.
      + destruct gitignore_patterns; simpl in *; f_equal; exact Heq.
      + split; [exact Hnd |]. intros p. rewrite Hin. tauto.
    - exists []. rewrite app_nil_r. split; [done |].
      split; [constructor |]. intros p. simpl. split; [done |].
      by intros [? _]. }
  split; [exact Hmerge |].
  intros abspath gitignore_patterns s Hgiven.
  destruct (Hmerge abspath gitignore_patterns s) as (added & Heq & Hnd & Hin).
  eexists. split; [exact Heq |].
  apply NoDup_app. split; [exact Hgiven |]. split; [| exact Hnd].
  intros p Hp Hadded. apply list_elem_of_In in Hp, Hadded.
  apply Hin in Hadded. tauto.
Qed.

(** X11 at work: the sample settings with a [.gitignore] that repeats
    itself. *)
Lemma post_init_merges_gitignore_witness :
  exists patterns,
    Config.exclude_patterns
      (Config.post_init sample_abspath sample_gitignore sample_settings)
    = Some patterns
    /\ NoDup patterns.
Proof.
  apply (proj2 post_init_merges_gitignore sample_abspath sample_gitignore
           sample_settings).
  apply (bool_decide_unpack _). vm_compute. exact I.
Defined.

Lemma endswith_ensure_slash (s : string) :
  PyStr.endswith_char "/" (Config.ensure_slash s) = true.
Proof.
  unfold Config.ensure_slash.
  destruct (PyStr.endswith_char "/" s) eqn:Hs; [exact Hs |].
  apply endswith_char_snoc.
Qed.

Lemma endswith_char_app (c : ascii) (s t : string) :
  t <> EmptyString ->
  PyStr.endswith_char c (s ++ t)%string = PyStr.endswith_char c t.
Proof.
  intros Ht. induction s as [| d s IH]; [done |].
  change (String d s ++ t)%string with (String d (s ++ t)%string).
  destruct (s ++ t)%string as [| a st] eqn:Hst.
  - destruct s; [simpl in Hst; contradiction | discriminate].
  - exact IH.
Qed.

Lemma split_char_nonempty (c : ascii) (s : string) :
  PyStr.split_char c s <> [].
Proof.
  destruct s as [| d s]; simpl; [done |].
  destruct (Ascii.eqb d c); [done |]. by destruct (PyStr.split_char c s).
Qed.

Lemma split_char_snoc (c : ascii) (s : string) :
  PyStr.split_char c (s ++ String c EmptyString)%string
  = PyStr.split_char c s ++ [EmptyString].
Proof.
  induction s as [| d s IH]; simpl.
  - by rewrite Ascii.eqb_refl.
  - destruct (Ascii.eqb d c); [by rewrite IH |].
    rewrite IH. pose proof (split_char_nonempty c s) as Hne.
    by destruct (PyStr.split_char c s).
Qed.

(** A trailing slash does not change the path a text stands for. *)
Lemma Path_trailing_slash (s : string) :
  s <> EmptyString -> Path (s ++ "/")%string = Path s.
Proof.
  intros Hs. unfold Path. f_equal.
  - unfold PyStr.startswith. destruct s as [| a s]; [done |].
    destruct s; simpl; destruct (ascii_dec "/" a); reflexivity.
  - rewrite split_char_snoc, List.filter_app. simpl. by rewrite app_nil_r.
Qed.

(** X12.  A constructed configuration has a local path, a remote path
    and hence a remote target that end in a slash (so the transfer copies
    the contents of one directory into the other), and a path that
    already ends in one is left alone.  The slash added to the local path
    makes no difference to the daemon: its watched root is the resolved
    absolute path. *)
Theorem post_init_slashes :
  (forall (abspath : string -> string) (gitignore_patterns : list string)
          (s : Config.Settings),
      let s' := Config.post_init abspath gitignore_patterns s in
      PyStr.endswith_char "/" (Config.local_path s') = true
      /\ PyStr.endswith_char "/" (Config.remote_path s') = true
      /\ PyStr.endswith_char "/" (Config.remote_target s') = true
      /\ Config.ensure_slash (Config.remote_path s') = Config.remote_path s'
      /\ Config.ensure_slash (Config.local_path s') = Config.local_path s')
  /\ (forall (abspath : string -> string) (gitignore_patterns : list string)
             (s : Config.Settings) (resolve : PurePath -> PurePath),
         abspath (Config.local_path s) <> EmptyString ->
         local_path
           (init resolve
              (Config.daemon_config
                 (Config.post_init abspath gitignore_patterns s)))
         = resolve (Path (abspath (Config.local_path s)))).
Proof.
  split.
  - intros abspath gitignore_patterns s s'. subst s'. simpl.
    split; [apply endswith_ensure_slash |].
    split; [apply endswith_ensure_slash |].
    split.
    { unfold Config.remote_target. simpl.
      assert (Config.ensure_slash (Config.remote_path s) <> EmptyString) as Hne.
      { intros Hempty. pose proof (endswith_ensure_slash (Config.remote_path s))
          as Hend. by rewrite Hempty in Hend. }
      destruct (Config.ssh_user s) as [[| c user] |];
        rewrite ?endswith_char_app; try apply endswith_ensure_slash;
        try exact Hne; try done.
      all: intros Hempty; destruct (Config.remote_host s); discriminate. }
    split; unfold Config.ensure_slash at 1; by rewrite endswith_ensure_slash.
  - intros abspath gitignore_patterns s resolve Hne. simpl.
    f_equal. unfold Config.ensure_slash.
    destruct (PyStr.endswith_char "/" (abspath (Config.local_path s)));
      [done | by apply Path_trailing_slash].
Qed.

(** X12 at work on the sample settings. *)
Lemma post_init_slashes_witness :
  local_path
    (init plain_resolve
       (Config.daemon_config
          (Config.post_init sample_abspath sample_gitignore sample_settings)))
  = plain_resolve (Path (sample_abspath (Config.local_path sample_settings))).
Proof.
  apply (proj2 post_init_slashes sample_abspath sample_gitignore
           sample_settings plain_resolve).
  discriminate.
Defined.

(** ** The transfer command *)

Lemma exclude_flags_In (patterns : list string) (p : string) :
  In p patterns ->
  exists pre post,
    flat_map (fun pattern => ["--exclude"%string; pattern]) patterns
    = pre ++ "--exclude"%string :: p :: post.
Proof.
  induction patterns as [| q patterns IH]; intros Hin; [done |].
  destruct Hin as [-> | Hin].
  - exists [], (flat_map (fun pattern => ["--exclude"%string; pattern]) patterns).
    reflexivity.
  - destruct (IH Hin) as (pre & post & Heq).
    exists ("--exclude"%string :: q :: pre), post. simpl. by rewrite Heq.
Qed.

(** X13.  The command handed to the transfer program starts with
    [rsync] and ends with source and destination; every exclusion pattern
    of the configuration is in it, right after an [--exclude]; a dry run
    differs from the real run by the one argument [--dry-run]; and [pull]
    runs the command of [push] with its last two arguments exchanged. *)
Theorem rsync_command_shape :
  (forall (s : Config.Settings) (source destination : string) (dry_run : bool),
      exists middle,
        Rsync._build_rsync_command s source destination dry_run
        = "rsync"%string :: middle ++ [source; destination])
  /\ (forall (s : Config.Settings) (source destination : string)
             (dry_run : bool) (patterns : list string) (p : string),
         Config.exclude_patterns s = Some patterns ->
         In p patterns ->
         exists pre post,
           Rsync._build_rsync_command s source destination dry_run
           = pre ++ "--exclude"%string :: p :: post)
  /\ (forall (s : Config.Settings) (source destination : string),
         exists front back,
           Rsync._build_rsync_command s source destination false
           = front ++ back
           /\ Rsync._build_rsync_command s source destination true
              = front ++ "--dry-run"%string :: back)
  /\ (forall (s : Config.Settings) (dry_run : bool),
         exists front,
           Rsync.push_command s dry_run
           = front ++ [Config.local_path s; Config.remote_target s]
           /\ Rsync.pull_command s dry_run
              = front ++ [Config.remote_target s; Config.local_path s]).
Proof.
  split.
  { intros s source destination dry_run. unfold Rsync._build_rsync_command.
    cbv zeta.
    match goal with
    | |- context [?a ++ ?o ++ ?d ++ ?e ++ ?h ++ [source; destination]] =>
        exists (o ++ d ++ e ++ h)
    end.
    rewrite <- !app_assoc. reflexivity. }
  split.
  { intros s source destination dry_run patterns p Hpat Hin.
    unfold Rsync._build_rsync_command. rewrite Hpat. cbv zeta.
    destruct (exclude_flags_In patterns p Hin) as (pre & post & ->).
    match goal with
    | |- context [?a ++ ?o ++ ?d ++ (pre ++ _) ++ ?rest] =>
        exists (a ++ o ++ d ++ pre), (post ++ rest)
    end.
    rewrite <- !app_assoc. reflexivity. }
  split.
  { intros s source destination. unfold Rsync._build_rsync_command.
    cbv zeta.
    match goal with
    | |- context [?a ++ ?o ++ [] ++ ?rest] => exists (a ++ o), rest
    end.
    split; rewrite <- !app_assoc; reflexivity. }
  intros s dry_run. unfold Rsync.push_command, Rsync.pull_command,
    Rsync._build_rsync_command. cbv zeta.
  match goal with
  | |- context [?a ++ ?o ++ ?d ++ ?e ++ ?h ++ [Config.local_path s; _]] =>
      exists (a ++ o ++ d ++ e ++ h)
  end.
  split; rewrite <- !app_assoc; reflexivity.
Qed.

(** X13 at work: the pattern [dist/], which came from [.gitignore],
    reaches the command of a push. *)
Lemma rsync_command_shape_witness :
  exists pre post,
    Rsync._build_rsync_command
      (Config.post_init sample_abspath sample_gitignore sample_settings)
      "/home/u/proj/" "u@host:/srv/proj/" false
    = pre ++ "--exclude"%string :: "dist/"%string :: post.
Proof.
  apply (proj1 (proj2 rsync_command_shape)
           (Config.post_init sample_abspath sample_gitignore sample_settings)
           "/home/u/proj/"%string "u@host:/srv/proj/"%string false
           ["build/"; "*.log"; "dist/"; ".env"]%string "dist/"%string).
  - reflexivity.
  - simpl. tauto.
Defined.

(** ** Looking for the configuration file *)

Lemma find_first {A} (f : A -> bool) (l : list A) (x : A) :
  List.find f l = Some x ->
  exists before after,
    l = before ++ x :: after
    /\ f x = true
    /\ (forall y, In y before -> f y = false).
Proof.
  induction l as [| a l IH]; intros Hfind; [discriminate |].
  simpl in Hfind. destruct (f a) eqn:Hfa.
  - injection Hfind as <-. exists [], l. repeat split; [done | done].
  - destruct (IH Hfind) as (before & after & -> & Hfx & Hbefore).
    exists (a :: before), after. repeat split; [done |].
    intros y [<- | Hy]; [done | by apply Hbefore].
Qed.

Lemma parent_fixed (p : PurePath) : p = Config.parent p <-> parts p = [].
Proof.
  destruct p as [a ws]. unfold Config.parent. simpl. split.
  - intros Heq. injection Heq as Heq.
    destruct ws as [| w ws] using rev_ind; [done |].
    rewrite removelast_last in Heq.
    apply (f_equal length) in Heq. rewrite length_app in Heq. simpl in Heq. lia.
  - by intros ->.
Qed.

Lemma ancestor_full (p : PurePath) : ancestor p (length (parts p)) = p.
Proof. destruct p as [a ws]. unfold ancestor. simpl. by rewrite firstn_all. Qed.

Lemma ancestor_parent (p : PurePath) (k : nat) :
  (k < length (parts p))%nat ->
  ancestor (Config.parent p) k = ancestor p k.
Proof.
  intros Hk. unfold ancestor, Config.parent. simpl. f_equal.
  rewrite removelast_firstn_len, take_take. f_equal. lia.
Qed.

Lemma parent_length (p : PurePath) :
  length (parts (Config.parent p)) = (length (parts p) - 1)%nat.
Proof.
  unfold Config.parent. simpl. rewrite removelast_firstn_len, length_take. lia.
Qed.

(** The search, told apart by its result. *)
Lemma search_upwards_spec (file_exists : PurePath -> bool) (fuel : nat) :
  forall current : PurePath,
    (length (parts current) < fuel)%nat ->
    match Config.search_upwards file_exists fuel current with
    | Some found =>
        exists k before name after,
          (1 <= k <= length (parts current))%nat
          /\ Config.config_names = before ++ name :: after
          /\ found = str (file_in (ancestor current k) name)
          /\ file_exists (file_in (ancestor current k) name) = true
          /\ (forall earlier, In earlier before ->
                file_exists (file_in (ancestor current k) earlier) = false)
          /\ (forall k', (k < k' <= length (parts current))%nat ->
                no_config_in file_exists (ancestor current k'))
    | None =>
        forall k, (1 <= k <= length (parts current))%nat ->
                  no_config_in file_exists (ancestor current k)
    end.
Proof.
  induction fuel as [| fuel IH]; intros current Hfuel; [lia |].
  cbn [Config.search_upwards].
  case_bool_decide as Hroot.
  { apply parent_fixed in Hroot. rewrite Hroot. simpl. intros k Hk. lia. }
  assert (parts current <> []) as Hparts
    by (by intros ?%parent_fixed).
  assert (1 <= length (parts current))%nat as Hlen
    by (destruct (parts current); [done | simpl; lia]).
  destruct (List.find _ Config.config_names) as [name |] eqn:Hfind.
  - destruct (find_first _ _ _ Hfind) as (before & after & Hnames & Hex & Hearly).
    exists (length (parts current)), before, name, after.
    rewrite ancestor_full. unfold file_in.
    split; [lia |]. split; [exact Hnames |]. split; [done |].
    split; [exact Hex |]. split; [exact Hearly |].
    intros k' Hk'. lia.
  - assert (no_config_in file_exists current) as Hnone.
    { intros name Hin. by apply (find_none _ _ Hfind). }
    specialize (IH (Config.parent current)).
    rewrite parent_length in IH.
    assert (length (parts current) - 1 < fuel)%nat as Hfuel' by lia.
    specialize (IH Hfuel').
    destruct (Config.search_upwards file_exists fuel (Config.parent current))
      as [found |].
    + destruct IH as (k & before & name & after & Hk & Hnames & Hfound & Hex
                      & Hearly & Hdeeper).
      assert (k < length (parts current))%nat as Hklt by lia.
      rewrite (ancestor_parent current k Hklt) in Hfound, Hex, Hearly.
      exists k, before, name, after.
      split; [lia |]. split; [exact Hnames |]. split; [exact Hfound |].
      split; [exact Hex |]. split; [exact Hearly |].
      intros k' Hk'.
      destruct (decide (k' = length (parts current))) as [-> | Hne].
      * by rewrite ancestor_full.
      * rewrite <- (ancestor_parent current k') by lia. apply Hdeeper. lia.
    + intros k Hk.
      destruct (decide (k = length (parts current))) as [-> | Hne].
      * by rewrite ancestor_full.
      * rewrite <- (ancestor_parent current k) by lia. apply IH. lia.
Qed.

(** X14.  [find_config_file] walks from the resolved start directory
    towards the root.  What it returns is a file that exists, under one
    of the five names, in the start directory or one of its ancestors; no
    directory nearer to the start holds a configuration file, and in the
    directory of the find no name listed earlier exists.  It returns
    nothing exactly when none of these directories holds one.  The root
    directory itself is never searched: started at the root, the search
    finds nothing whatever the file system holds. *)
Theorem find_config_file_nearest :
  (forall (resolve : PurePath -> PurePath) (file_exists : PurePath -> bool)
          (start_path : string),
      let current := resolve (Path start_path) in
      match Config.find_config_file resolve file_exists start_path with
      | Some found =>
          exists k before name after,
            (1 <= k <= length (parts current))%nat
            /\ Config.config_names = before ++ name :: after
            /\ found = str (file_in (ancestor current k) name)
            /\ file_exists (file_in (ancestor current k) name) = true
            /\ (forall earlier, In earlier before ->
                  file_exists (file_in (ancestor current k) earlier) = false)
            /\ (forall k', (k < k' <= length (parts current))%nat ->
                  no_config_in file_exists (ancestor current k'))
      | None =>
          forall k, (1 <= k <= length (parts current))%nat ->
                    no_config_in file_exists (ancestor current k)
      end)
  /\ (forall (resolve : PurePath -> PurePath) (file_exists : PurePath -> bool)
             (start_path : string),
         parts (resolve (Path start_path)) = [] ->
         Config.find_config_file resolve file_exists start_path = None).
Proof.
  split.
  - intros resolve file_exists start_path current.
    unfold Config.find_config_file. fold current.
    apply search_upwards_spec. lia.
  - intros resolve file_exists start_path Hroot.
    unfold Config.find_config_file. cbn [Config.search_upwards].
    case_bool_decide as Hfix; [done |].
    exfalso. apply Hfix. by apply parent_fixed.
Qed.

(** X14 at work: started at the root of a file system on which every
    file exists. *)
Lemma find_config_file_nearest_witness :
  Config.find_config_file plain_resolve (fun _ => true) "/" = None.
Proof.
  apply (proj2 find_config_file_nearest plain_resolve (fun _ => true)
           "/"%string).
  reflexivity.
Defined.

(** ** More on the exclusion matcher *)

Lemma any_pattern_excludes_exists (rel_path file_name : string)
    (patterns : list string) :
  any_pattern_excludes rel_path file_name patterns = true
  <-> exists pattern,
      In pattern patterns
      /\ pattern_excludes rel_path file_name pattern = true.
Proof.
  induction patterns as [| p ps IH]; simpl.
  - split; [discriminate | by intros (? & [] & _)].
  - destruct (pattern_excludes rel_path file_name p) eqn:Hp.
    + split; [intros _; exists p; auto | done].
    + rewrite IH. split.
      * intros (q & Hin & Hq). exists q. auto.
      * intros (q & [<- | Hin] & Hq); [congruence | exists q; auto].
Qed.

(** X15.  The verdict of the matcher depends on which rules are listed,
    not on their order or on repetitions, and listing more rules never
    excludes less: a file excluded under one rule list is excluded under
    every list that holds all its rules, by a daemon with the same root. *)
Theorem more_rules_exclude_more :
  forall resolve (d1 d2 : Daemon) (file_path : RawPath)
         (rules1 rules2 : list string),
    exclude_patterns (config d1) = Some rules1 ->
    exclude_patterns (config d2) = Some rules2 ->
    local_path d1 = local_path d2 ->
    (forall rule, In rule rules1 -> In rule rules2) ->
    should_exclude_file resolve d1 file_path = true ->
    should_exclude_file resolve d2 file_path = true.
Proof.
  intros resolve d1 d2 file_path rules1 rules2 H1 H2 Hroot Hsub.
  rewrite !should_exclude_file_seen, H1, H2.
  assert (seen_as resolve d1 file_path = seen_as resolve d2 file_path) as ->.
  { unfold seen_as, _coerce_path, _relative_path. by rewrite Hroot. }
  rewrite !any_pattern_excludes_exists.
  intros (rule & Hin & Hex). exists rule. auto.
Qed.

(** X15 at work: [a.log] under the rule [*.log] alone and under a longer
    list that repeats it. *)
Lemma more_rules_exclude_more_witness :
  should_exclude_file plain_resolve
    (daemon_with_rules (Some ["build/"; "*.log"; "*.log"]%string))
    (RawStr "a.log") = true.
Proof.
  apply (more_rules_exclude_more plain_resolve
           (daemon_with_rules (Some ["*.log"%string]))
           (daemon_with_rules (Some ["build/"; "*.log"; "*.log"]%string))
           (RawStr "a.log") ["*.log"%string] ["build/"; "*.log"; "*.log"]%string).
  - reflexivity.
  - reflexivity.
  - reflexivity.
  - intros rule [<- | []]. simpl. tauto.
  - reflexivity.
Defined.

Lemma only_slashes_normal (rule : string) :
  only_slashes rule = true ->
  only_slashes (PyStr.replace_char "\" "/" rule) = true
  /\ PyStr.contains_char "\" (PyStr.replace_char "\" "/" rule) = false.
Proof.
  induction rule as [| c rule IH]; simpl; [done |].
  intros [Hc Hrest]%andb_true_iff.
  destruct (IH Hrest) as [IH1 IH2].
  destruct (Ascii.eqb_spec c "\") as [-> | Hne]; simpl.
  - by rewrite IH1, IH2.
  - rewrite orb_false_r in Hc. apply Ascii.eqb_eq in Hc. subst c. simpl.
    by rewrite IH1, IH2.
Qed.

Lemma slashes_strip_to_nothing (s : string) :
  only_slashes s = true ->
  PyStr.contains_char "\" s = false ->
  PyStr.rstrip_char "/" s = EmptyString
  /\ (s <> EmptyString -> PyStr.endswith_char "/" s = true).
Proof.
  induction s as [| c s IH]; simpl; [done |].
  intros [Hc Hrest]%andb_true_iff [Hnc Hns]%orb_false_iff.
  destruct (IH Hrest Hns) as [IH1 IH2].
  rewrite Hnc, orb_false_r in Hc. rewrite IH1, Hc. split; [done |].
  intros _. destruct s as [| c' s]; [done |]. by apply IH2.
Qed.

(** X16.  A rule written with nothing but slashes (or backslashes) is a
    directory rule with an empty prefix: it excludes every file, and so
    does every rule list that holds it. *)
Theorem slash_rule_excludes_everything :
  forall resolve (d : Daemon) (file_path : RawPath) (rule : string)
         (rules : list string),
    rule <> EmptyString ->
    only_slashes rule = true ->
    exclude_patterns (config d) = Some rules ->
    In rule rules ->
    should_exclude_file resolve d file_path = true.
Proof.
  intros resolve d file_path rule rules Hne Hslash Hrules Hin.
  rewrite should_exclude_file_seen, Hrules.
  apply any_pattern_excludes_exists. exists rule. split; [exact Hin |].
  unfold pattern_excludes.
  destruct (only_slashes_normal rule Hslash) as [Hnorm Hnb].
  destruct (slashes_strip_to_nothing _ Hnorm Hnb) as [Hstrip Hend].
  rewrite Hend, Hstrip.
  - unfold PyStr.startswith. by destruct (fst _).
  - intros Hempty. destruct rule; [done | discriminate].
Qed.

(** X16 at work: a lone slash among the rules of the sample project. *)
Lemma slash_rule_excludes_everything_witness :
  should_exclude_file plain_resolve
    (daemon_with_rules (Some ["*.log"; "/"]%string)) (RawStr "src/a.py") = true.
Proof.
  apply (slash_rule_excludes_everything plain_resolve
           (daemon_with_rules (Some ["*.log"; "/"]%string)) (RawStr "src/a.py")
           "/"%string ["*.log"; "/"]%string).
  - discriminate.
  - reflexivity.
  - reflexivity.
  - simpl. tauto.
Defined.
